(** * app.py: face detection page (Streamlit + OpenCV)

    The repository is one Python script.  Its own logic is the colour
    conversion [hex_to_bgr] and the page script that wires the widgets, the
    detector and the drawing routine together.  PIL, numpy, OpenCV and
    Streamlit are libraries the script calls: they appear here as an
    interface ([Backend]) the script is parameterised by, never as code. *)

From Stdlib Require Import ZArith String Ascii List Bool Lia.
From Stdlib Require Import Floats.PrimFloat.
From stdpp Require Import base option list gmap strings pretty.

Import ListNotations.
Local Open Scope string_scope.
Local Open Scope Z_scope.
Set Warnings "-inexact-float".

(** ** Python values used by the script *)

Module Py.

(** Exceptions that can arise on the paths of app.py.  All of them derive
    from Python's [Exception]: [ValueError] is what [int] raises on a bad
    literal, [LibraryError] stands for whatever a PIL, numpy or cv2 call
    raises (cv2.error, OSError, AttributeError, ...). *)
Inductive exn : Type :=
| ValueError (literal : string)
| LibraryError (cls msg : string).

Inductive result (A : Type) : Type :=
| Ok (a : A)
| Raise (e : exn).
Arguments Ok {A} a.
Arguments Raise {A} e.

Definition rbind {A B} (r : result A) (k : A -> result B) : result B :=
  match r with
  | Ok a => k a
  | Raise e => Raise e
  end.

(** A [str] is modelled as a Rocq string whose characters are the code
    points U+0000..U+00FF. *)
Definition ord (c : ascii) : Z := Z.of_N (N_of_ascii c).

(** [s.lstrip(chars)] for a one-character [chars]. *)
Fixpoint lstrip (s : string) (ch : ascii) : string :=
  match s with
  | String c s' => if Ascii.eqb c ch then lstrip s' ch else s
  | EmptyString => EmptyString
  end.

Fixpoint drop_str (n : nat) (s : string) : string :=
  match n, s with
  | O, _ => s
  | S n', String _ s' => drop_str n' s'
  | S _, EmptyString => EmptyString
  end.

Fixpoint take_str (n : nat) (s : string) : string :=
  match n, s with
  | O, _ => EmptyString
  | S n', String c s' => String c (take_str n' s')
  | S _, EmptyString => EmptyString
  end.

(** [s[i:j]] for non-negative [i], [j]: clipped to the string, never an
    error. *)
Definition slice (s : string) (i j : nat) : string :=
  take_str (j - i) (drop_str i s).

(** *** [int(s, 16)]

    CPython: [PyLong_FromUnicodeObject] first maps Unicode spaces and decimal
    digits to ASCII (an all-ASCII string is left alone), then
    [PyLong_FromString] reads blanks, a sign, an optional [0x] prefix, the
    digits with single underscores between them, and trailing blanks. *)

Definition Py_ISSPACE (c : ascii) : bool :=
  let n := ord c in ((9 <=? n) && (n <=? 13)) || (n =? 32).

(** [Py_UNICODE_ISSPACE] on the code points 127..255 (NEL and NBSP). *)
Definition Py_UNICODE_ISSPACE_high (c : ascii) : bool :=
  let n := ord c in (n =? 133) || (n =? 160).

(** [_PyLong_DigitValue]: 37 marks a character that is no digit in any
    base. *)
Definition PyLong_DigitValue (c : ascii) : Z :=
  let n := ord c in
  if (48 <=? n) && (n <=? 57) then n - 48
  else if (97 <=? n) && (n <=? 122) then n - 87
  else if (65 <=? n) && (n <=? 90) then n - 55
  else 37.

Fixpoint is_ascii_str (s : string) : bool :=
  match s with
  | String c s' => (ord c <? 128) && is_ascii_str s'
  | EmptyString => true
  end.

(** No code point in 127..255 is a decimal digit, so the first one that is
    not a space becomes ['?'] and ends the buffer. *)
Fixpoint transform_chars (s : string) : string :=
  match s with
  | String c s' =>
      if ord c <? 127 then String c (transform_chars s')
      else if Py_UNICODE_ISSPACE_high c then String " " (transform_chars s')
      else "?"
  | EmptyString => EmptyString
  end.

Definition TransformDecimalAndSpaceToASCII (s : string) : string :=
  if is_ascii_str s then s else transform_chars s.

Fixpoint skip_spaces (s : string) : string :=
  match s with
  | String c s' => if Py_ISSPACE c then skip_spaces s' else s
  | EmptyString => EmptyString
  end.

(** The digit scan of [long_from_binary_base]: [prev] is the previous
    character (NUL before the first), [acc] the value so far.  [None] is a
    syntax error (two underscores in a row, or one at the end); otherwise
    the value, the last character read and the rest of the input. *)
Fixpoint scan_digits (base : Z) (prev : ascii) (acc : Z) (s : string)
  : option (Z * ascii * string) :=
  let stop := if Ascii.eqb prev "_" then None else Some (acc, prev, s) in
  match s with
  | String c s' =>
      if Ascii.eqb c "_" then
        if Ascii.eqb prev "_" then None else scan_digits base c acc s'
      else if PyLong_DigitValue c <? base then
        scan_digits base c (acc * base + PyLong_DigitValue c) s'
      else stop
  | EmptyString => stop
  end.

Definition NUL : ascii := Ascii.zero.

(** [PyLong_FromString(str, &end, 16)] followed by the end-of-string test
    of its caller. *)
Definition PyLong_FromString16 (str : string) : option Z :=
  let str := skip_spaces str in
  let '(sign, str) :=
    match str with
    | String "+" s' => (1, s')
    | String "-" s' => (-1, s')
    | _ => (1, str)
    end in
  let str :=
    match str with
    | String "0" (String x s') =>
        if Ascii.eqb x "x" || Ascii.eqb x "X" then
          match s' with
          | String "_" s'' => s''
          | _ => s'
          end
        else str
    | _ => str
    end in
  match str with
  | String "_" _ => None
  | _ =>
      match scan_digits 16 NUL 0 str with
      | None => None
      | Some (z, prev, rest) =>
          if Ascii.eqb prev NUL then None
          else
            match skip_spaces rest with
            | EmptyString => Some (sign * z)
            | String _ _ => None
            end
      end
  end.

Definition int16 (s : string) : result Z :=
  match PyLong_FromString16 (TransformDecimalAndSpaceToASCII s) with
  | Some z => Ok z
  | None => Raise (ValueError s)
  end.

End Py.

Import Py.

Notation "x <- r ;; k" := (rbind r (fun x => k))
  (at level 100, r at next level, right associativity, only parsing).

(** ** The colour conversion (app.py, lines 55-59) *)

Definition hex_to_bgr (hex_color : string) : result (Z * Z * Z) :=
  let hex_color := lstrip hex_color "#" in
  r <- int16 (slice hex_color 0 2) ;;
  g <- int16 (slice hex_color 2 4) ;;
  b <- int16 (slice hex_color 4 6) ;;
  let rgb := (r, g, b) in
  let bgr := (rgb.2, rgb.1.2, rgb.1.1) in
  Ok bgr.


(** ** Values that cross the library boundary *)

Definition bytes : Type := list Byte.byte.

(** One row of the detector's result: [(x, y, w, h)], numpy int32 scalars. *)
Definition region : Type := (Z * Z * Z * Z)%type.

(** [x + w] on numpy int32 scalars wraps around. *)
Definition int32_add (a b : Z) : Z :=
  (a + b + 2 ^ 31) mod 2 ^ 32 - 2 ^ 31.

(** OpenCV's conversion codes; [COLOR_RGB2BGR] and [COLOR_BGR2RGB] are the
    same constant. *)
Definition COLOR_BGR2RGB : Z := 4.
Definition COLOR_RGB2BGR : Z := 4.
Definition COLOR_BGR2GRAY : Z := 6.
Definition COLOR_GRAY2BGR : Z := 8.

(** [datetime.now()], to the second. *)
Record datetime : Type := {
  year : Z; month : Z; day : Z; hour : Z; minute : Z; second : Z
}.

Definition digit_char (d : Z) : ascii := ascii_of_N (Z.to_N (48 + d)).

(** Zero-padded decimal fields of [strftime]: [%m %d %H %M %S] and [%Y]
    (four digits, as the datetime documentation gives it). *)
Definition pad2 (n : Z) : string :=
  String (digit_char (n / 10 mod 10)) (String (digit_char (n mod 10)) "").

Definition pad4 (n : Z) : string :=
  String (digit_char (n / 1000 mod 10)) (String (digit_char (n / 100 mod 10)) (pad2 n)).

(** [dt.strftime("%Y%m%d_%H%M%S")] *)
Definition strftime_Ymd_HMS (dt : datetime) : string :=
  pad4 (year dt) ++ pad2 (month dt) ++ pad2 (day dt) ++ "_" ++
  pad2 (hour dt) ++ pad2 (minute dt) ++ pad2 (second dt).

(** ** The libraries, as the script sees them

    Every call can raise.  Arrays are values here; which Python object
    holds which value is the business of the store below. *)

Class Backend : Type := {
  pil_image : Type;
  ndarray : Type;
  cascade : Type;
  (* PIL *)
  Image_open : bytes -> result pil_image;
  Image_size : pil_image -> Z * Z;              (* (width, height) *)
  Image_format : pil_image -> string;
  Image_fromarray : ndarray -> result pil_image;
  Image_save : pil_image -> string -> result bytes;
  (* numpy *)
  np_array : pil_image -> result ndarray;
  shape2 : ndarray -> Z * Z;                    (* a.shape[:2] = (rows, cols) *)
  (* cv2 *)
  cvtColor : ndarray -> Z -> result ndarray;
  haarcascades : result string;                 (* cv2.data.haarcascades *)
  CascadeClassifier : string -> result cascade;
  detectMultiScale : cascade -> ndarray -> float -> Z -> Z * Z -> result (list region);
  rectangle : ndarray -> Z * Z -> Z * Z -> Z * Z * Z -> Z -> result ndarray;
  (* str(e) *)
  exn_str : exn -> string
}.

(** What the browser holds during one interaction: the widget positions,
    the uploaded file, and the wall clock. *)
Record session : Type := {
  slider_float_state : string -> float -> float -> float -> float -> float;
  slider_int_state : string -> Z -> Z -> Z -> Z;
  color_picker_state : string -> string -> string;
  file_uploader_state : string -> list string -> option bytes;
  clock : datetime
}.

(** *** What the page shows

    One constructor per Streamlit call of the script, with the arguments
    that decide what is shown; the [help] texts and [use_column_width] are
    left out.  A container says where the element goes: the page, the
    sidebar, or column [k] of a row of [of_n] columns. *)

Inductive container : Type :=
| Page
| Sidebar
| Column (of_n k : nat).

Inductive metric_value : Type :=
| MInt (n : Z)
| MFloat (x : float).

Inductive element (image : Type) : Type :=
| PageConfig (page_title layout : string)
| Title (body : string)
| Markdown (body : string)
| Header (body : string)
| Subheader (body : string)
| SliderFloat (label : string) (min_value max_value value step : float)
| SliderInt (label : string) (min_value max_value value : Z)
| ColorPicker (label value : string)
| FileUploader (label : string) (type : list string)
| ImageEl (img : image) (caption : string)
| Metric (label : string) (value : metric_value)
| WriteEl (body : string)
| DownloadButton (label : string) (data : bytes) (file_name mime : string)
| Success (body : string)
| Warning (body : string)
| ErrorEl (body : string)
| Info (body : string).

Arguments PageConfig {image}.
Arguments Title {image}.
Arguments Markdown {image}.
Arguments Header {image}.
Arguments Subheader {image}.
Arguments SliderFloat {image}.
Arguments SliderInt {image}.
Arguments ColorPicker {image}.
Arguments FileUploader {image}.
Arguments ImageEl {image}.
Arguments Metric {image}.
Arguments WriteEl {image}.
Arguments DownloadButton {image}.
Arguments Success {image}.
Arguments Warning {image}.
Arguments ErrorEl {image}.
Arguments Info {image}.

(** Calls into the detector, in the order they were made. *)
Inductive call (array : Type) : Type :=
| CallCascadeClassifier (path : string)
| CallDetectMultiScale (image : array) (scaleFactor : float)
    (minNeighbors : Z) (minSize : Z * Z).

Arguments CallCascadeClassifier {array}.
Arguments CallDetectMultiScale {array}.

(** *** The store *)

Definition loc : Type := positive.

Record world (image array : Type) : Type := {
  heap : gmap loc array;                      (* numpy buffers, by object *)
  page : list (container * element image);    (* elements rendered so far *)
  calls : list (call array)
}.

Arguments heap {image array}.
Arguments page {image array}.
Arguments calls {image array}.

(** The script's variables at the end of the [try] block.  Python drops
    them; they are returned here so that theorems can name them. *)
Record locals (image : Type) : Type := {
  v_gray : loc;
  v_faces : list region;
  v_result_image : loc;
  v_bgr_color : Z * Z * Z;
  v_result_pil : image;
  v_png : bytes;
  v_filename : string
}.

Arguments v_gray {image}.
Arguments v_faces {image}.
Arguments v_result_image {image}.
Arguments v_bgr_color {image}.
Arguments v_result_pil {image}.
Arguments v_png {image}.
Arguments v_filename {image}.

Section Script.

Context {B : Backend}.

(** *** The script monad *)

Definition world_t : Type := world pil_image ndarray.

Definition M (A : Type) : Type := world_t -> result A * world_t.

Definition ret {A} (a : A) : M A := fun w => (Ok a, w).

Definition bind {A C} (m : M A) (k : A -> M C) : M C :=
  fun w =>
    match m w with
    | (Ok a, w') => k a w'
    | (Raise e, w') => (Raise e, w')
    end.

(** [try: body  except Exception as e: handler e] *)
Definition try_except {A} (body : M A) (handler : exn -> M A) : M A :=
  fun w =>
    match body w with
    | (Ok a, w') => (Ok a, w')
    | (Raise e, w') => handler e w'
    end.

(** A library call: its result or its exception. *)
Definition lib {A} (r : result A) : M A := fun w => (r, w).

End Script.

Notation "x <~ m ;; k" := (bind m (fun x => k))
  (at level 100, m at next level, right associativity, only parsing).
Notation "m ;;; k" := (bind m (fun _ => k))
  (at level 100, right associativity, only parsing).

Section Page.

Context {B : Backend}.

Definition set_page (w : world_t) (p : list (container * element pil_image)) : world_t :=
  {| heap := heap w; page := p; calls := calls w |}.

Definition set_heap (w : world_t) (h : gmap loc ndarray) : world_t :=
  {| heap := h; page := page w; calls := calls w |}.

Definition set_calls (w : world_t) (c : list (call ndarray)) : world_t :=
  {| heap := heap w; page := page w; calls := c |}.

(** An [st.*] call appends one element to the page. *)
Definition emit (c : container) (e : element pil_image) : M unit :=
  fun w => (Ok tt, set_page w (page w ++ [(c, e)])).

Definition log_call (c : call ndarray) : M unit :=
  fun w => (Ok tt, set_calls w (calls w ++ [c])).

(** A new Python object holding [a]. *)
Definition alloc (a : ndarray) : M loc :=
  fun w =>
    let l := fresh (dom (heap w)) in
    (Ok l, set_heap w (<[l := a]> (heap w))).

(** Reading through a reference.  The script only reads objects it has
    created, so the second branch is never taken on a run of [script]. *)
Definition load (l : loc) : M ndarray :=
  fun w =>
    match heap w !! l with
    | Some a => (Ok a, w)
    | None => (Raise (LibraryError "ReferenceError" ""), w)
    end.

Definition store (l : loc) (a : ndarray) : M unit :=
  fun w => (Ok tt, set_heap w (<[l := a]> (heap w))).

Fixpoint for_each {A} (xs : list A) (body : A -> M unit) : M unit :=
  match xs with
  | [] => ret tt
  | x :: xs' => body x ;;; for_each xs' body
  end.

Fixpoint enumerate_from {A} (i : nat) (xs : list A) : list (nat * A) :=
  match xs with
  | [] => []
  | x :: xs' => (i, x) :: enumerate_from (S i) xs'
  end.

(** *** Library calls, as the script makes them *)

(** [np.array(image)]: a new array. *)
Definition np_array_of (image : pil_image) : M loc :=
  a <~ lib (np_array image) ;; alloc a.

(** [cv2.cvtColor(src, code)]: a new array, [src] is only read. *)
Definition cv2_cvtColor (src : loc) (code : Z) : M loc :=
  a <~ load src ;;
  a' <~ lib (cvtColor a code) ;;
  alloc a'.

(** [src.copy()] *)
Definition ndarray_copy (src : loc) : M loc :=
  a <~ load src ;; alloc a.

(** [cv2.CascadeClassifier(cv2.data.haarcascades + name)] *)
Definition cv2_CascadeClassifier (name : string) : M cascade :=
  dir <~ lib haarcascades ;;
  log_call (CallCascadeClassifier (dir ++ name)) ;;;
  lib (CascadeClassifier (dir ++ name)).

Definition cv2_detectMultiScale (c : cascade) (image : loc)
    (scaleFactor : float) (minNeighbors : Z) (minSize : Z * Z) : M (list region) :=
  a <~ load image ;;
  log_call (CallDetectMultiScale a scaleFactor minNeighbors minSize) ;;;
  lib (detectMultiScale c a scaleFactor minNeighbors minSize).

(** [cv2.rectangle(img, pt1, pt2, color, thickness)] draws into [img]
    itself. *)
Definition cv2_rectangle (img : loc) (pt1 pt2 : Z * Z) (color : Z * Z * Z)
    (thickness : Z) : M unit :=
  a <~ load img ;;
  a' <~ lib (rectangle a pt1 pt2 color thickness) ;;
  store img a'.

Definition Image_fromarray_at (src : loc) : M pil_image :=
  a <~ load src ;; lib (Image_fromarray a).

(** *** Widgets *)

Definition st_sidebar_slider_float (ses : session) (label : string)
    (min_value max_value value step : float) : M float :=
  emit Sidebar (SliderFloat label min_value max_value value step) ;;;
  ret (slider_float_state ses label min_value max_value value step).

Definition st_sidebar_slider_int (ses : session) (label : string)
    (min_value max_value value : Z) : M Z :=
  emit Sidebar (SliderInt label min_value max_value value) ;;;
  ret (slider_int_state ses label min_value max_value value).

Definition st_sidebar_color_picker (ses : session) (label value : string) : M string :=
  emit Sidebar (ColorPicker label value) ;;;
  ret (color_picker_state ses label value).

Definition st_file_uploader (ses : session) (label : string) (type : list string)
  : M (option bytes) :=
  emit Page (FileUploader label type) ;;;
  ret (file_uploader_state ses label type).

(** *** Page texts *)

Definition instructions : string := "
## 📖 How to Use This App

1. **Upload an Image**: Use the file uploader below to select an image from your device (supports JPG, JPEG, PNG formats)
2. **Adjust Parameters**: Use the sliders in the sidebar to fine-tune the face detection:
   - **Scale Factor**: Controls how much the image size is reduced at each scale (lower = more thorough detection)
   - **Min Neighbors**: Minimum number of neighbor rectangles each face needs (higher = fewer false positives)
3. **Choose Rectangle Color**: Pick your preferred color for the face detection rectangles
4. **View Results**: The app will automatically detect faces and draw rectangles around them
5. **Download Results**: Click the download button to save the processed image to your device

---
".

Definition features : string := "
    - **Real-time face detection** using the Viola-Jones algorithm
    - **Adjustable parameters** for fine-tuning detection sensitivity
    - **Customizable rectangle colors** for better visualization
    - **Download functionality** to save processed images
    - **Detailed statistics** about detection results
    - **Face coordinate information** for each detected face
    ".

Definition guidelines : string := "
    - **Scale Factor (1.1-2.0)**: 
      - Lower values (1.1-1.2): More thorough detection, slower processing
      - Higher values (1.4-2.0): Faster processing, might miss some faces
    - **Min Neighbors (1-10)**:
      - Lower values (1-3): More detections, higher chance of false positives
      - Higher values (5-10): Fewer false positives, might miss some faces
    ".

Definition footer : string :=
  "*Built with Streamlit and OpenCV • Face Detection using Viola-Jones Algorithm*".

End Page.

(** ** The page script (app.py, top to bottom) *)

Section Run.

Context {B : Backend}.

Definition len {A} (xs : list A) : Z := Z.of_nat (length xs).

(** Lines 101-102: the drawing loop. *)
Definition draw_faces (result_image : loc) (faces : list region) (bgr_color : Z * Z * Z)
  : M unit :=
  for_each faces (fun '(x, y, w, h) =>
    cv2_rectangle result_image (x, y) (int32_add x w, int32_add y h) bgr_color 2).

(** Lines 98-102: copy, colour, rectangles. *)
Definition annotate (opencv_image : loc) (rect_color : string) (faces : list region)
  : M (loc * (Z * Z * Z)) :=
  result_image <~ ndarray_copy opencv_image ;;
  bgr_color <~ lib (hex_to_bgr rect_color) ;;
  draw_faces result_image faces bgr_color ;;;
  ret (result_image, bgr_color).

(** Line 128 *)
Definition face_line (i : nat) (r : region) : string :=
  let '(x, y, w, h) := r in
  "**Face " ++ pretty (Z.of_nat i + 1) ++ ":** Position (x=" ++ pretty x ++
  ", y=" ++ pretty y ++ "), Size (width=" ++ pretty w ++ ", height=" ++ pretty h ++ ")".

(** Line 144 *)
Definition result_filename (now : datetime) : string :=
  "face_detection_result_" ++ strftime_Ymd_HMS now ++ ".png".

(** Lines 84-159: the body of the [try]. *)
Definition try_body (ses : session) (opencv_image : loc)
    (scale_factor : float) (min_neighbors : Z) (rect_color : string) : M (locals pil_image) :=
  face_cascade <~ cv2_CascadeClassifier "haarcascade_frontalface_default.xml" ;;
  gray <~ cv2_cvtColor opencv_image COLOR_BGR2GRAY ;;
  faces <~ cv2_detectMultiScale face_cascade gray scale_factor min_neighbors (30, 30) ;;
  ann <~ annotate opencv_image rect_color faces ;;
  let '(result_image, bgr_color) := ann in
  result_image_rgb <~ cv2_cvtColor result_image COLOR_BGR2RGB ;;
  result_pil <~ Image_fromarray_at result_image_rgb ;;
  emit (Column 2 1) (Subheader "🎯 Face Detection Results") ;;;
  emit (Column 2 1) (ImageEl result_pil ("Detected " ++ pretty (len faces) ++ " face(s)")) ;;;
  emit Page (Markdown "---") ;;;
  emit Page (Subheader "📊 Detection Statistics") ;;;
  emit (Column 3 0) (Metric "Faces Detected" (MInt (len faces))) ;;;
  emit (Column 3 1) (Metric "Scale Factor" (MFloat scale_factor)) ;;;
  emit (Column 3 2) (Metric "Min Neighbors" (MInt min_neighbors)) ;;;
  (if 0 <? len faces then
     emit Page (Subheader "📍 Face Coordinates") ;;;
     for_each (enumerate_from 0 faces) (fun '(i, r) => emit Page (WriteEl (face_line i r)))
   else ret tt) ;;;
  emit Page (Markdown "---") ;;;
  emit Page (Subheader "💾 Download Processed Image") ;;;
  png <~ lib (Image_save result_pil "PNG") ;;
  let filename := result_filename (clock ses) in
  emit Page (DownloadButton "📥 Download Image with Detected Faces" png filename "image/png") ;;;
  (if 0 <? len faces then
     emit Page (Success ("✅ Successfully detected " ++ pretty (len faces) ++
                         " face(s) in the image!"))
   else
     emit Page (Warning "⚠️ No faces were detected. Try adjusting the parameters in the sidebar.")) ;;;
  ret {| v_gray := gray; v_faces := faces; v_result_image := result_image;
         v_bgr_color := bgr_color; v_result_pil := result_pil; v_png := png;
         v_filename := filename |}.

(** Lines 161-163: the handler. *)
Definition on_exception (e : exn) : M unit :=
  emit Page (ErrorEl ("❌ Error loading face detection model: " ++ exn_str e)) ;;;
  emit Page (Info "Make sure OpenCV is properly installed with the required data files.").

(** Lines 83-163 *)
Definition detect_block (ses : session) (opencv_image : loc)
    (scale_factor : float) (min_neighbors : Z) (rect_color : string)
  : M (option (locals pil_image)) :=
  try_except
    (r <~ try_body ses opencv_image scale_factor min_neighbors rect_color ;; ret (Some r))
    (fun e => on_exception e ;;; ret None).

(** Lines 166-188: nothing uploaded yet. *)
Definition placeholder : M unit :=
  emit Page (Info "👆 Please upload an image to start face detection!") ;;;
  emit Page (Markdown "### 🌟 Features of This App:") ;;;
  emit Page (Markdown features) ;;;
  emit Page (Markdown "### 🔧 Parameter Guidelines:") ;;;
  emit Page (Markdown guidelines).

(** One run of the script: the opened image (when a file was uploaded and
    decoded), its BGR array, and the variables of the [try] block when it
    ran to its end. *)
Definition run_result : Type := option (pil_image * loc * option (locals pil_image)).

Definition script (ses : session) : M run_result :=
  emit Page (PageConfig "Face Detection App" "centered") ;;;
  emit Page (Title "😊 Face Detection with Viola-Jones (OpenCV)") ;;;
  emit Page (Markdown instructions) ;;;
  emit Sidebar (Header "🎛️ Detection Parameters") ;;;
  scale_factor <~ st_sidebar_slider_float ses "Scale Factor" 1.1 2.0 1.3 0.1 ;;
  min_neighbors <~ st_sidebar_slider_int ses "Min Neighbors" 1 10 5 ;;
  rect_color <~ st_sidebar_color_picker ses "Rectangle Color" "#00FF00" ;;
  uploaded_file <~ st_file_uploader ses "Choose an image file" ["jpg"; "jpeg"; "png"] ;;
  r <~ match uploaded_file with
       | Some f =>
           image <~ lib (Image_open f) ;;
           arr <~ np_array_of image ;;
           opencv_image <~ cv2_cvtColor arr COLOR_RGB2BGR ;;
           emit (Column 2 0) (Subheader "📷 Original Image") ;;;
           emit (Column 2 0) (ImageEl image "Uploaded Image") ;;;
           r <~ detect_block ses opencv_image scale_factor min_neighbors rect_color ;;
           ret (Some (image, opencv_image, r))
       | None =>
           placeholder ;;; ret None
       end ;;
  emit Page (Markdown "---") ;;;
  emit Page (Markdown footer) ;;;
  ret r.

Definition world0 : world_t := {| heap := ∅; page := []; calls := [] |}.

End Run.

(** ** Vocabulary for the theorems *)

Section Logic.

Context {B : Backend}.

(** [wp m Q w]: running [m] from [w] ends in an outcome and a world that
    satisfy [Q], whether it returns or raises. *)
Definition wp {A} (m : M A) (Q : result A -> world_t -> Prop) (w : world_t) : Prop :=
  Q (m w).1 (m w).2.

(** What the drawing loop leaves in the buffer it draws into, and the
    exception that stopped it, if any: one [rectangle] of thickness 2 from
    [(x, y)] to [(x + w, y + h)] per region, in order. *)
Fixpoint draw_all (a : ndarray) (faces : list region) (bgr_color : Z * Z * Z)
  : ndarray * option exn :=
  match faces with
  | [] => (a, None)
  | (x, y, w, h) :: rest =>
      match rectangle a (x, y) (int32_add x w, int32_add y h) bgr_color 2 with
      | Ok a' => draw_all a' rest bgr_color
      | Raise e => (a, Some e)
      end
  end.

Definition loop_result (o : option exn) : result unit :=
  match o with
  | None => Ok tt
  | Some e => Raise e
  end.

(** *** The widgets' current values *)

Definition uploaded (ses : session) : option bytes :=
  file_uploader_state ses "Choose an image file" ["jpg"; "jpeg"; "png"].

Definition picked_colour (ses : session) : string :=
  color_picker_state ses "Rectangle Color" "#00FF00".

Definition picked_scale_factor (ses : session) : float :=
  slider_float_state ses "Scale Factor" 1.1 2.0 1.3 0.1.

Definition picked_min_neighbors (ses : session) : Z :=
  slider_int_state ses "Min Neighbors" 1 10 5.

(** *** Calls *)


Definition is_detect_call (c : call ndarray) : bool :=
  match c with
  | CallDetectMultiScale _ _ _ _ => true
  | CallCascadeClassifier _ => false
  end.

Definition is_init_call (c : call ndarray) : bool := negb (is_detect_call c).

(** The detector is called with a scale factor in [1.1, 2.0] and a
    neighbour count in [1, 10]. *)
Definition parameters_in_range (c : call ndarray) : Prop :=
  match c with
  | CallDetectMultiScale _ scaleFactor minNeighbors _ =>
      PrimFloat.leb 1.1 scaleFactor = true /\ PrimFloat.leb scaleFactor 2.0 = true /\
      1 <= minNeighbors <= 10
  | CallCascadeClassifier _ => True
  end.

(** *** Stages of a run, without the bookkeeping *)

(** Loading the cascade (line 84). *)
Definition load_cascade : result cascade :=
  dir <- haarcascades ;;
  CascadeClassifier (dir ++ "haarcascade_frontalface_default.xml").

(** The upload, as the script ingests it (lines 70-73): the opened image
    and its BGR array. *)
Definition ingest (f : bytes) : result (pil_image * ndarray) :=
  image <- Image_open f ;;
  arr <- np_array image ;;
  bgr <- cvtColor arr COLOR_RGB2BGR ;;
  Ok (image, bgr).

(** Detection goes through (lines 84-95): the cascade loads, the grayscale
    conversion and the detection call return. *)
Definition detects (ses : session) (bgr : ndarray) (faces : list region) : Prop :=
  exists c g, load_cascade = Ok c /\ cvtColor bgr COLOR_BGR2GRAY = Ok g /\
    detectMultiScale c g (picked_scale_factor ses) (picked_min_neighbors ses) (30, 30)
      = Ok faces.

(** The detector cannot be used: loading the cascade raises, or (OpenCV's
    way with a missing file) the cascade loads empty and the detection call
    raises. *)
Definition detector_unavailable (ses : session) (bgr : ndarray) (e : exn) : Prop :=
  load_cascade = Raise e \/
  exists c g, load_cascade = Ok c /\ cvtColor bgr COLOR_BGR2GRAY = Ok g /\
    detectMultiScale c g (picked_scale_factor ses) (picked_min_neighbors ses) (30, 30)
      = Raise e.

(** The displayed image when nothing is drawn: RGB to BGR and back
    (lines 73, 98, 105, 106). *)
Definition channel_order_round_trip (image : pil_image) : result pil_image :=
  arr <- np_array image ;;
  bgr <- cvtColor arr COLOR_RGB2BGR ;;
  rgb <- cvtColor bgr COLOR_BGR2RGB ;;
  Image_fromarray rgb.

(** The specification's words for the same image: "the grayscale-to-color
    round trip of the original", that is the grayscale image the detector
    is given, converted back to three channels for display. *)
Definition gray_to_color_round_trip (image : pil_image) : result pil_image :=
  arr <- np_array image ;;
  bgr <- cvtColor arr COLOR_RGB2BGR ;;
  gray <- cvtColor bgr COLOR_BGR2GRAY ;;
  back <- cvtColor gray COLOR_GRAY2BGR ;;
  rgb <- cvtColor back COLOR_BGR2RGB ;;
  Image_fromarray rgb.

(** *** Pages *)

(** What every run renders first (lines 8-66). *)
Definition front_matter : list (container * element pil_image) :=
  [(Page, PageConfig "Face Detection App" "centered");
   (Page, Title "😊 Face Detection with Viola-Jones (OpenCV)");
   (Page, Markdown instructions);
   (Sidebar, Header "🎛️ Detection Parameters");
   (Sidebar, SliderFloat "Scale Factor" 1.1 2.0 1.3 0.1);
   (Sidebar, SliderInt "Min Neighbors" 1 10 5);
   (Sidebar, ColorPicker "Rectangle Color" "#00FF00");
   (Page, FileUploader "Choose an image file" ["jpg"; "jpeg"; "png"])].

(** The left column (lines 78-80). *)
Definition original_column (image : pil_image) : list (container * element pil_image) :=
  [(Column 2 0, Subheader "📷 Original Image");
   (Column 2 0, ImageEl image "Uploaded Image")].

(** What the handler of lines 161-163 puts on the page, followed by the
    footer. *)
Definition error_report (e : exn) : list (container * element pil_image) :=
  [(Page, ErrorEl ("❌ Error loading face detection model: " ++ exn_str e));
   (Page, Info "Make sure OpenCV is properly installed with the required data files.");
   (Page, Markdown "---");
   (Page, Markdown footer)].

(** What is rendered when no file is uploaded (lines 166-188), followed by
    the footer. *)
Definition placeholder_page : list (container * element pil_image) :=
  [(Page, Info "👆 Please upload an image to start face detection!");
   (Page, Markdown "### 🌟 Features of This App:");
   (Page, Markdown features);
   (Page, Markdown "### 🔧 Parameter Guidelines:");
   (Page, Markdown guidelines);
   (Page, Markdown "---");
   (Page, Markdown footer)].

(** *** Two runs that differ in the time of day *)

Definition forget_filename (r : locals pil_image) : locals pil_image :=
  {| v_gray := v_gray r; v_faces := v_faces r; v_result_image := v_result_image r;
     v_bgr_color := v_bgr_color r; v_result_pil := v_result_pil r; v_png := v_png r;
     v_filename := "" |}.

Definition forget_file_name (ce : container * element pil_image)
  : container * element pil_image :=
  match ce with
  | (c, DownloadButton label data _ mime) => (c, DownloadButton label data "" mime)
  | _ => ce
  end.

(** Two worlds that differ at most in the file name offered for download. *)
Definition same_world (w1 w2 : world_t) : Prop :=
  heap w1 = heap w2 /\ calls w1 = calls w2 /\
  map forget_file_name (page w1) = map forget_file_name (page w2).

(** Two computations that go the same way from such worlds. *)
Definition sim {A} (R : A -> A -> Prop) (m1 m2 : M A) : Prop :=
  forall w1 w2, same_world w1 w2 ->
    same_world (m1 w1).2 (m2 w2).2 /\
    match (m1 w1).1, (m2 w2).1 with
    | Ok a1, Ok a2 => R a1 a2
    | Raise e1, Raise e2 => e1 = e2
    | _, _ => False
    end.

Definition same_locals (r1 r2 : locals pil_image) : Prop :=
  forget_filename r1 = forget_filename r2.

Definition same_block (x1 x2 : option (locals pil_image)) : Prop :=
  option_map forget_filename x1 = option_map forget_filename x2.

Definition same_run (x1 x2 : run_result) : Prop :=
  match x1, x2 with
  | Some (image1, oi1, r1), Some (image2, oi2, r2) =>
      image1 = image2 /\ oi1 = oi2 /\ same_block r1 r2
  | None, None => True
  | _, _ => False
  end.

(** What a run found and produced: the regions, the annotated buffer and
    image, the PNG bytes. *)
Definition regions_of (x : result run_result) : option (list region) :=
  match x with
  | Ok (Some (_, _, Some r)) => Some (v_faces r)
  | _ => None
  end.

Definition annotated_of (x : result run_result * world_t)
  : option (option ndarray * pil_image * bytes) :=
  match x.1 with
  | Ok (Some (_, _, Some r)) => Some (heap x.2 !! v_result_image r, v_result_pil r, v_png r)
  | _ => None
  end.

End Logic.

Definition at_time (ses : session) (now : datetime) : session :=
  {| slider_float_state := slider_float_state ses;
     slider_int_state := slider_int_state ses;
     color_picker_state := color_picker_state ses;
     file_uploader_state := file_uploader_state ses;
     clock := now |}.

(** *** What the libraries promise about sizes and files

    [np.array] and [Image.fromarray] keep width and height, the RGB/BGR swap
    and [cv2.rectangle] keep the array's shape, and a PNG written by
    [Image.save] opens again as a PNG of the same size. *)

Definition transpose (p : Z * Z) : Z * Z := (p.2, p.1).

Class BackendLaws (B : Backend) : Prop := {
  np_array_shape : forall im a,
    np_array im = Ok a -> shape2 a = transpose (Image_size im);
  cvtColor_swap_shape : forall a a',
    cvtColor a COLOR_BGR2RGB = Ok a' -> shape2 a' = shape2 a;
  rectangle_shape : forall a pt1 pt2 color thickness a',
    rectangle a pt1 pt2 color thickness = Ok a' -> shape2 a' = shape2 a;
  fromarray_size : forall a im,
    Image_fromarray a = Ok im -> Image_size im = transpose (shape2 a);
  save_png_then_open : forall im b,
    Image_save im "PNG" = Ok b ->
    exists im', Image_open b = Ok im' /\ Image_format im' = "PNG" /\
                Image_size im' = Image_size im
}.

(** The sliders hand back a value between the bounds they were declared
    with, whenever the declared default lies between them. *)
Definition sliders_respect_bounds (ses : session) : Prop :=
  (forall label lo hi value step,
      PrimFloat.leb lo value = true -> PrimFloat.leb value hi = true ->
      PrimFloat.leb lo (slider_float_state ses label lo hi value step) = true /\
      PrimFloat.leb (slider_float_state ses label lo hi value step) hi = true) /\
  (forall label lo hi value,
      lo <= value <= hi ->
      lo <= slider_int_state ses label lo hi value <= hi).

(** *** Time stamps *)

Definition is_digit (c : ascii) : bool := (48 <=? ord c) && (ord c <=? 57).

(** [YYYYMMDD_HHMMSS]: eight digits, an underscore, six digits. *)
Definition is_timestamp (s : string) : bool :=
  match s with
  | String y1 (String y2 (String y3 (String y4 (String m1 (String m2 (String d1
      (String d2 (String u (String h1 (String h2 (String n1 (String n2 (String s1
      (String s2 ""))))))))))))))  =>
      forallb is_digit [y1; y2; y3; y4; m1; m2; d1; d2; h1; h2; n1; n2; s1; s2]
      && Ascii.eqb u "_"
  | _ => false
  end.

(** Reading such a stamp back: the decimal value of each field. *)
Fixpoint read_decimal (acc : Z) (s : string) : Z :=
  match s with
  | String c s' => read_decimal (10 * acc + (ord c - 48)) s'
  | EmptyString => acc
  end.

Definition read_timestamp (s : string) : datetime :=
  {| year := read_decimal 0 (slice s 0 4);
     month := read_decimal 0 (slice s 4 6);
     day := read_decimal 0 (slice s 6 8);
     hour := read_decimal 0 (slice s 9 11);
     minute := read_decimal 0 (slice s 11 13);
     second := read_decimal 0 (slice s 13 15) |}.

(** A reading of the wall clock with a four-digit year. *)
Definition valid_clock (dt : datetime) : Prop :=
  1000 <= year dt <= 9999 /\ 1 <= month dt <= 12 /\ 1 <= day dt <= 31 /\
  0 <= hour dt <= 23 /\ 0 <= minute dt <= 59 /\ 0 <= second dt <= 59.

(** *** Colour strings, as the specification describes them *)

(** The sixteen hexadecimal digits, in both cases, with their values. *)
Definition hex_digits : list (ascii * Z) :=
  [("0", 0); ("1", 1); ("2", 2); ("3", 3); ("4", 4); ("5", 5); ("6", 6); ("7", 7);
   ("8", 8); ("9", 9); ("a", 10); ("b", 11); ("c", 12); ("d", 13); ("e", 14);
   ("f", 15); ("A", 10); ("B", 11); ("C", 12); ("D", 13); ("E", 14); ("F", 15)]%char.

(** The value of one hexadecimal digit; [None] for any other character. *)
Definition hex_digit_value (c : ascii) : option Z :=
  match List.find (fun p => Ascii.eqb p.1 c) hex_digits with
  | Some p => Some p.2
  | None => None
  end.

(** [#RRGGBB] as a string of seven characters. *)
Definition colour_string (r1 r2 g1 g2 b1 b2 : ascii) : string :=
  String "#" (String r1 (String r2 (String g1 (String g2 (String b1 (String b2 "")))))).

Definition is_hex_digit (c : ascii) : bool :=
  match hex_digit_value c with
  | Some _ => true
  | None => false
  end.

(** Seven characters: a hash and six hexadecimal digits.  Anything else is
    malformed. *)
Definition well_formed_colour (s : string) : bool :=
  match s with
  | String h (String r1 (String r2 (String g1 (String g2 (String b1 (String b2 "")))))) =>
      Ascii.eqb h "#" && is_hex_digit r1 && is_hex_digit r2 && is_hex_digit g1
      && is_hex_digit g2 && is_hex_digit b1 && is_hex_digit b2
  | _ => false
  end.

(** ** A run, stage by stage *)

Section Stages.

Context {B : Backend}.

(** Lines 84-106 as one computation on values: the cascade, the grayscale
    image, the detection, the colour, the rectangles drawn on the BGR
    pixels, and the RGB image made of the result.  The calls are in the
    script's order, so the first one that raises decides the exception. *)
Definition prepare (ses : session) (bgr : ndarray)
  : result (list region * (Z * Z * Z) * ndarray * pil_image) :=
  c <- load_cascade ;;
  gray <- cvtColor bgr COLOR_BGR2GRAY ;;
  faces <- detectMultiScale c gray (picked_scale_factor ses) (picked_min_neighbors ses)
             (30, 30) ;;
  bgr_color <- hex_to_bgr (picked_colour ses) ;;
  annotated <- match draw_all bgr faces bgr_color with
               | (a, None) => Ok a
               | (_, Some e) => Raise e
               end ;;
  rgb <- cvtColor annotated COLOR_BGR2RGB ;;
  pil <- Image_fromarray rgb ;;
  Ok (faces, bgr_color, annotated, pil).

(** Lines 125-128: a heading and one line per region, numbered from 1, when
    there is a region; nothing otherwise. *)
Definition coordinates (faces : list region) : list (container * element pil_image) :=
  match faces with
  | [] => []
  | _ :: _ =>
      (Page, Subheader "📍 Face Coordinates")
      :: imap (fun k r => (Page, WriteEl (face_line k r))) faces
  end.

(** Lines 108-132: the right column, the statistics, the coordinates and
    the heading of the download section. *)
Definition results_page (ses : session) (faces : list region) (pil : pil_image)
  : list (container * element pil_image) :=
  ([(Column 2 1, Subheader "🎯 Face Detection Results");
    (Column 2 1, ImageEl pil ("Detected " ++ pretty (len faces) ++ " face(s)"));
    (Page, Markdown "---");
    (Page, Subheader "📊 Detection Statistics");
    (Column 3 0, Metric "Faces Detected" (MInt (len faces)));
    (Column 3 1, Metric "Scale Factor" (MFloat (picked_scale_factor ses)));
    (Column 3 2, Metric "Min Neighbors" (MInt (picked_min_neighbors ses)))]
   ++ coordinates faces
   ++ [(Page, Markdown "---");
       (Page, Subheader "💾 Download Processed Image")])%list.

(** Lines 156-159 *)
Definition verdict (faces : list region) : element pil_image :=
  match faces with
  | [] => Warning "⚠️ No faces were detected. Try adjusting the parameters in the sidebar."
  | _ :: _ => Success ("✅ Successfully detected " ++ pretty (len faces) ++
                       " face(s) in the image!")
  end.

(** Lines 147-192 of a run that got that far: the button, the verdict, the
    footer. *)
Definition closing_page (ses : session) (faces : list region) (png : bytes)
  : list (container * element pil_image) :=
  [(Page, DownloadButton "📥 Download Image with Detected Faces" png
            (result_filename (clock ses)) "image/png");
   (Page, verdict faces);
   (Page, Markdown "---");
   (Page, Markdown footer)].

(** How a run ends, by the stage it got to: no upload; an upload that does
    not ingest; a failure before anything of the result is rendered; a
    failure on saving; the end of the [try] block. *)
Definition stage_outcome (ses : session) (res : result run_result) (w : world_t) : Prop :=
  match uploaded ses with
  | None =>
      res = Ok None /\ page w = (front_matter ++ placeholder_page)%list
  | Some f =>
      match ingest f with
      | Raise e => res = Raise e /\ page w = front_matter
      | Ok (image, bgr) =>
          exists opencv_image,
            heap w !! opencv_image = Some bgr /\
            match prepare ses bgr with
            | Raise e =>
                res = Ok (Some (image, opencv_image, None)) /\
                page w = (front_matter ++ original_column image ++ error_report e)%list
            | Ok (faces, bgr_color, annotated, pil) =>
                match Image_save pil "PNG" with
                | Raise e =>
                    res = Ok (Some (image, opencv_image, None)) /\
                    page w = (front_matter ++ original_column image ++
                              results_page ses faces pil ++ error_report e)%list
                | Ok png =>
                    exists r,
                      res = Ok (Some (image, opencv_image, Some r)) /\
                      v_faces r = faces /\ v_bgr_color r = bgr_color /\
                      v_result_pil r = pil /\ v_png r = png /\
                      v_filename r = result_filename (clock ses) /\
                      heap w !! v_result_image r = Some annotated /\
                      page w = (front_matter ++ original_column image ++
                                results_page ses faces pil ++
                                closing_page ses faces png)%list
                end
            end
      end
  end.

(** *** The annotation, in the specification's words

    "A 2-pixel-wide rectangle outline drawn at each region's bounds": for
    the region [(x, y, w, h)] the rectangle from the corner [(x, y)] to the
    corner [(x + w, y + h)], with the integers' own sum, thickness 2, the
    regions taken in the order of the list; the buffer so far and the
    exception, when a drawing call raises. *)
Fixpoint outline_all (a : ndarray) (faces : list region) (color : Z * Z * Z)
  : ndarray * option exn :=
  match faces with
  | [] => (a, None)
  | (x, y, w, h) :: rest =>
      match rectangle a (x, y) (x + w, y + h) color 2 with
      | Ok a' => outline_all a' rest color
      | Raise e => (a, Some e)
      end
  end.

(** The far corner of the region is representable in 32 bits, as it is for
    every region that lies inside a picture. *)
Definition far_corner_fits (r : region) : Prop :=
  let '(x, y, w, h) := r in
  - 2 ^ 31 <= x + w < 2 ^ 31 /\ - 2 ^ 31 <= y + h < 2 ^ 31.

End Stages.

(** The texts put on a page with [st.write], in page order. *)
Definition written {image} (p : list (container * element image)) : list string :=
  omap (fun ce => match ce.2 with WriteEl body => Some body | _ => None end) p.

Definition is_download {image} (el : element image) : bool :=
  match el with DownloadButton _ _ _ _ => true | _ => false end.

Definition is_verdict {image} (el : element image) : bool :=
  match el with Success _ | Warning _ => true | _ => false end.

(** The separator and the footer (lines 191-192). *)
Definition footer_lines {image} : list (container * element image) :=
  [(Page, Markdown "---"); (Page, Markdown footer)].

(** *** What [hex_to_bgr] accepts, in plain words *)

(** A blank for [int]: tab, line feed, vertical tab, form feed, carriage
    return, space, and the Latin-1 next-line and no-break space. *)
Definition is_blank (c : ascii) : bool :=
  let n := ord c in
  ((9 <=? n) && (n <=? 13)) || (n =? 32) || (n =? 133) || (n =? 160).

(** The value of a slice of at most two characters: two hexadecimal
    digits; or one digit, alone, after a sign or a blank, or before a blank.
    Anything else has none. *)
Definition pair_value (t : string) : option Z :=
  match t with
  | EmptyString => None
  | String c EmptyString => hex_digit_value c
  | String c1 (String c2 EmptyString) =>
      match hex_digit_value c1, hex_digit_value c2 with
      | Some v1, Some v2 => Some (16 * v1 + v2)
      | None, Some v2 =>
          if Ascii.eqb c1 "+" || is_blank c1 then Some v2
          else if Ascii.eqb c1 "-" then Some (- v2)
          else None
      | Some v1, None => if is_blank c2 then Some v1 else None
      | None, None => None
      end
  | _ => None
  end.

(** [A]..[Z] to [a]..[z], every other character unchanged. *)
Definition ascii_lower (c : ascii) : ascii :=
  if (65 <=? ord c) && (ord c <=? 90) then ascii_of_N (Z.to_N (ord c + 32)) else c.

Fixpoint lower (s : string) : string :=
  match s with
  | String c s' => String (ascii_lower c) (lower s')
  | EmptyString => EmptyString
  end.

(** Every character, and every string of at most two of them. *)
Definition all_ascii : list ascii := map ascii_of_nat (seq 0 256).

Definition short_strings : list string :=
  (EmptyString :: map (fun c => String c EmptyString) all_ascii ++
   flat_map (fun c1 => map (fun c2 => String c1 (String c2 EmptyString)) all_ascii)
     all_ascii)%list.

(** The value [int] gives, or none when it raises. *)
Definition int16_value (t : string) : option Z :=
  match int16 t with
  | Ok v => Some v
  | Raise _ => None
  end.

Definition same_value (a b : option Z) : bool :=
  match a, b with
  | Some x, Some y => x =? y
  | None, None => true
  | _, _ => false
  end.

(** The channels, or none when the conversion raises. *)
Definition colour_value (s : string) : option (Z * Z * Z) :=
  match hex_to_bgr s with
  | Ok c => Some c
  | Raise _ => None
  end.

(** ** A miniature backend, to run the script on

    The theorems below hold for every [Backend].  This one is small enough
    to evaluate: images are rows x cols x channels of samples 0..255 kept in
    one flat list, the file container is a four-byte header followed by the
    samples, conversions follow OpenCV's channel conventions, [rectangle]
    paints a band of [thickness] pixels along the four sides, and the
    detector is whatever function it is given.  It stands in for the
    libraries in examples only. *)

Module Ref.

Record raster : Type := {
  rows : Z; cols : Z; chans : Z; samples : list Z
}.

Definition byte_of_Z (z : Z) : Byte.byte :=
  match Byte.of_N (Z.to_N (z mod 256)) with
  | Some b => b
  | None => Byte.x00
  end.

Definition Z_of_byte (b : Byte.byte) : Z := Z.of_N (Byte.to_N b).

Definition tag_png : Z := 80.
Definition tag_jpeg : Z := 74.

Definition decode (b : bytes) : result (string * raster) :=
  match b with
  | t :: c :: r :: ch :: px =>
      let ras := {| rows := Z_of_byte r; cols := Z_of_byte c; chans := Z_of_byte ch;
                    samples := map Z_of_byte px |} in
      if Z_of_byte t =? tag_png then Ok ("PNG", ras)
      else if Z_of_byte t =? tag_jpeg then Ok ("JPEG", ras)
      else Raise (LibraryError "UnidentifiedImageError" "cannot identify image file")
  | _ => Raise (LibraryError "UnidentifiedImageError" "cannot identify image file")
  end.

Definition fits_byte (z : Z) : bool := (0 <=? z) && (z <? 256).

Definition encode (im : string * raster) (format : string) : result bytes :=
  let ras := im.2 in
  if String.eqb format "PNG" && fits_byte (rows ras) && fits_byte (cols ras)
     && fits_byte (chans ras) then
    Ok (byte_of_Z tag_png :: byte_of_Z (cols ras) :: byte_of_Z (rows ras) ::
        byte_of_Z (chans ras) :: map byte_of_Z (samples ras))
  else Raise (LibraryError "OSError" "cannot write image").

Fixpoint swap3 (d : list Z) : list Z :=
  match d with
  | x :: y :: z :: rest => z :: y :: x :: swap3 rest
  | _ => []
  end.

Fixpoint swap4 (d : list Z) : list Z :=
  match d with
  | x :: y :: z :: _ :: rest => z :: y :: x :: swap4 rest
  | _ => []
  end.

Definition luma (b g r : Z) : Z := (b * 1868 + g * 9617 + r * 4899 + 8192) / 16384.

Fixpoint gray3 (d : list Z) : list Z :=
  match d with
  | b :: g :: r :: rest => luma b g r :: gray3 rest
  | _ => []
  end.

Fixpoint gray4 (d : list Z) : list Z :=
  match d with
  | b :: g :: r :: _ :: rest => luma b g r :: gray4 rest
  | _ => []
  end.

Fixpoint spread3 (d : list Z) : list Z :=
  match d with
  | v :: rest => v :: v :: v :: spread3 rest
  | [] => []
  end.

Definition cv2_error (msg : string) : exn := LibraryError "cv2.error" msg.

Definition with_samples (ras : raster) (ch : Z) (d : list Z) : raster :=
  {| rows := rows ras; cols := cols ras; chans := ch; samples := d |}.

Definition convert (ras : raster) (code : Z) : result raster :=
  if code =? 4 then
    if chans ras =? 3 then Ok (with_samples ras 3 (swap3 (samples ras)))
    else if chans ras =? 4 then Ok (with_samples ras 3 (swap4 (samples ras)))
    else Raise (cv2_error "Invalid number of channels in input image")
  else if code =? 6 then
    if chans ras =? 3 then Ok (with_samples ras 1 (gray3 (samples ras)))
    else if chans ras =? 4 then Ok (with_samples ras 1 (gray4 (samples ras)))
    else Raise (cv2_error "Invalid number of channels in input image")
  else if code =? 8 then
    if chans ras =? 1 then Ok (with_samples ras 3 (spread3 (samples ras)))
    else Raise (cv2_error "Invalid number of channels in input image")
  else Raise (cv2_error "Unknown/unsupported color conversion code").

Definition between (lo v hi : Z) : bool := (lo <=? v) && (v <=? hi).

(** Is pixel [(px, py)] on the band of the rectangle [pt1]-[pt2]? *)
Definition on_band (pt1 pt2 : Z * Z) (t px py : Z) : bool :=
  let '(x1, y1) := pt1 in
  let '(x2, y2) := pt2 in
  between x1 px x2 && between y1 py y2 &&
  negb (between (x1 + t) px (x2 - t) && between (y1 + t) py (y2 - t)).

Definition channel (color : Z * Z * Z) (k : Z) : Z :=
  if k =? 0 then color.1.1 else if k =? 1 then color.1.2 else color.2.

Fixpoint paint (ras : raster) (pt1 pt2 : Z * Z) (color : Z * Z * Z) (t : Z)
    (i : Z) (d : list Z) : list Z :=
  match d with
  | v :: rest =>
      let pixel := i / chans ras in
      (if on_band pt1 pt2 t (pixel mod cols ras) (pixel / cols ras)
       then channel color (i mod chans ras) else v)
      :: paint ras pt1 pt2 color t (i + 1) rest
  | [] => []
  end.

Definition draw (ras : raster) (pt1 pt2 : Z * Z) (color : Z * Z * Z) (t : Z)
  : result raster :=
  if chans ras =? 3 then Ok (with_samples ras 3 (paint ras pt1 pt2 color t 0 (samples ras)))
  else Raise (cv2_error "Layout of the output array img is incompatible").

Definition data_dir : string := "/usr/share/opencv4/haarcascades/".

Definition quote_literal (e : exn) : string :=
  match e with
  | ValueError lit => "invalid literal for int() with base 16: '" ++ lit ++ "'"
  | LibraryError _ msg => msg
  end.

Definition detector : Type := raster -> float -> Z -> Z * Z -> list region.

(** The backend around a given detector.  [installed] says whether the
    cascade file is there; without it the classifier loads empty, as
    OpenCV's does, and the detection call raises. *)
Definition backend (det : detector) (installed : bool) : Backend := {|
  pil_image := string * raster;
  ndarray := raster;
  cascade := bool;
  Image_open := decode;
  Image_size := fun im => (cols im.2, rows im.2);
  Image_format := fun im => im.1;
  Image_fromarray := fun a => Ok ("", a);
  Image_save := encode;
  np_array := fun im => Ok im.2;
  shape2 := fun a => (rows a, cols a);
  cvtColor := convert;
  haarcascades := Ok data_dir;
  CascadeClassifier := fun path =>
    Ok (installed && String.eqb path (data_dir ++ "haarcascade_frontalface_default.xml"));
  detectMultiScale := fun c img sf mn ms =>
    if c then Ok (det img sf mn ms)
    else Raise (cv2_error "(-215:Assertion failed) !empty() in function 'detectMultiScale'");
  rectangle := draw;
  exn_str := quote_literal
|}.

(** A first render: sliders at their defaults, the given colour, upload and
    clock. *)
Definition first_render (color : string) (upload : option bytes) (now : datetime)
  : session := {|
  slider_float_state := fun _ _ _ value _ => value;
  slider_int_state := fun _ _ _ value => value;
  color_picker_state := fun _ _ => color;
  file_uploader_state := fun _ _ => upload;
  clock := now
|}.

Fixpoint solid (n : nat) (r g b : Z) : list Z :=
  match n with
  | O => []
  | S n' => r :: g :: b :: solid n' r g b
  end.

(** A 6 x 6 RGB picture, all red, in the container format of [decode]. *)
Definition red_6x6 : bytes :=
  map byte_of_Z ([80; 6; 6; 3] ++ solid 36 255 0 0)%list.

Definition red_image : string * raster :=
  ("PNG", {| rows := 6; cols := 6; chans := 3; samples := solid 36 255 0 0 |}).

Definition red_bgr : raster :=
  {| rows := 6; cols := 6; chans := 3; samples := solid 36 0 0 255 |}.

Definition noon : datetime :=
  {| year := 2024; month := 5; day := 17; hour := 12; minute := 0; second := 7 |}.

Definition sees_nothing : detector := fun _ _ _ _ => [].

Definition sees_one : detector := fun _ _ _ _ => [(1, 1, 4, 4)].

(** Three installations: one that finds a face, one that finds none, one
    whose cascade file is missing. *)
Definition working : Backend := backend sees_one true.
Definition blind : Backend := backend sees_nothing true.
Definition broken : Backend := backend sees_one false.

(** First renders with the red picture uploaded. *)
Definition session_green : session := first_render "#00FF00" (Some red_6x6) noon.
Definition session_bad_colour : session := first_render "#GG0000" (Some red_6x6) noon.

(** What the script returns on them. *)
Definition blind_outcome : result (@run_result blind) :=
  Eval vm_compute in (script (B := blind) session_green world0).1.

Definition working_outcome : result (@run_result working) :=
  Eval vm_compute in (script (B := working) session_green world0).1.

End Ref.

(** ** Installations with a fault, for examples *)

Module Faulty.

(** [B] with another [Image.save]. *)
Definition with_save (B : Backend) (save : @pil_image B -> string -> result bytes)
  : Backend := {|
  pil_image := @pil_image B;
  ndarray := @ndarray B;
  cascade := @cascade B;
  Image_open := @Image_open B;
  Image_size := @Image_size B;
  Image_format := @Image_format B;
  Image_fromarray := @Image_fromarray B;
  Image_save := save;
  np_array := @np_array B;
  shape2 := @shape2 B;
  cvtColor := @cvtColor B;
  haarcascades := @haarcascades B;
  CascadeClassifier := @CascadeClassifier B;
  detectMultiScale := @detectMultiScale B;
  rectangle := @rectangle B;
  exn_str := @exn_str B
|}.

(** Pillow built without zlib: everything works but writing a PNG. *)
Definition no_png : Backend :=
  with_save Ref.working (fun _ _ => Raise (LibraryError "OSError" "encoder zip not available")).

End Faulty.

(** ** A picture, for examples *)

Module Picture.

(** BGR pixels. *)
Definition R : list Z := [0; 0; 255].
Definition G : list Z := [0; 255; 0].

(** The red 6 x 6 picture with a green outline of thickness 2 from (1, 1)
    to (5, 5), row by row: only the first row, the first column and the
    pixel in the middle of the square keep their colour. *)
Definition outlined_red_bgr : Ref.raster := {|
  Ref.rows := 6; Ref.cols := 6; Ref.chans := 3;
  Ref.samples := concat (concat
    [[R; R; R; R; R; R];
     [R; G; G; G; G; G];
     [R; G; G; G; G; G];
     [R; G; G; R; G; G];
     [R; G; G; G; G; G];
     [R; G; G; G; G; G]])
|}.

End Picture.

(** * Rules for reasoning about runs *)

Section Rules.

Context {B : Backend}.

Lemma wp_ret {A} (a : A) Q w : Q (Ok a) w -> wp (ret a) Q w.
Proof. exact id. Qed.

Lemma wp_lib {A} (r : result A) Q w : Q r w -> wp (lib r) Q w.
Proof. exact id. Qed.

Lemma wp_bind {A C} (m : M A) (k : A -> M C) Q w :
  wp m (fun r w' => match r with
                    | Ok a => wp (k a) Q w'
                    | Raise e => Q (Raise e) w'
                    end) w ->
  wp (bind m k) Q w.
Proof. unfold wp, bind. destruct (m w) as [[a | e] w']; auto. Qed.

Lemma wp_try_except {A} (m : M A) (h : exn -> M A) Q w :
  wp m (fun r w' => match r with
                    | Ok a => Q (Ok a) w'
                    | Raise e => wp (h e) Q w'
                    end) w ->
  wp (try_except m h) Q w.
Proof. unfold wp, try_except. destruct (m w) as [[a | e] w']; auto. Qed.

Lemma wp_mono {A} (m : M A) (Q Q' : result A -> world_t -> Prop) w :
  (forall r w', Q r w' -> Q' r w') -> wp m Q w -> wp m Q' w.
Proof. unfold wp. auto. Qed.

Lemma wp_emit c e Q w :
  Q (Ok tt) (set_page w (page w ++ [(c, e)])) -> wp (emit c e) Q w.
Proof. exact id. Qed.

Lemma wp_log_call c Q w :
  Q (Ok tt) (set_calls w (calls w ++ [c])) -> wp (log_call c) Q w.
Proof. exact id. Qed.

Lemma wp_alloc a Q w :
  (forall l, heap w !! l = None -> Q (Ok l) (set_heap w (<[l := a]> (heap w)))) ->
  wp (alloc a) Q w.
Proof.
  intros H. unfold wp, alloc. cbn. apply H.
  apply not_elem_of_dom, is_fresh.
Qed.

Lemma wp_load l Q w :
  match heap w !! l with
  | Some a => Q (Ok a) w
  | None => Q (Raise (LibraryError "ReferenceError" "")) w
  end ->
  wp (load l) Q w.
Proof. unfold wp, load. destruct (heap w !! l); auto. Qed.

Lemma wp_store l a Q w :
  Q (Ok tt) (set_heap w (<[l := a]> (heap w))) -> wp (store l a) Q w.
Proof. exact id. Qed.

(** A loop, by an invariant on what is left to do. *)
Lemma wp_for_each {A} (I : list A -> world_t -> Prop) (xs : list A) (body : A -> M unit) Q w :
  I xs w ->
  (forall x rest w', I (x :: rest) w' ->
     wp (body x) (fun r w'' => match r with
                               | Ok _ => I rest w''
                               | Raise e => Q (Raise e) w''
                               end) w') ->
  (forall w', I [] w' -> Q (Ok tt) w') ->
  wp (for_each xs body) Q w.
Proof.
  intros Hinit Hstep Hdone. revert w Hinit.
  induction xs as [| x rest IH]; intros w Hinit; cbn [for_each].
  - apply wp_ret. auto.
  - apply wp_bind. eapply wp_mono; [| apply (Hstep _ _ _ Hinit)].
    intros [[] | e] w'; cbn; auto.
Qed.

Lemma wp_load_some l a Q w :
  heap w !! l = Some a -> Q (Ok a) w -> wp (load l) Q w.
Proof. intros H HQ. apply wp_load. rewrite H. exact HQ. Qed.

(** A loop whose body only renders an element renders one per item. *)
Lemma for_each_emit {A} (f : A -> element pil_image) (c : container) (body : A -> M unit) xs w :
  (forall x w', body x w' = emit c (f x) w') ->
  for_each xs body w = (Ok tt, set_page w (page w ++ map (fun x => (c, f x)) xs)).
Proof.
  intros Hbody. revert w. induction xs as [| x rest IH]; intros [h p cs]; cbn.
  - unfold ret, set_page. cbn. by rewrite app_nil_r.
  - unfold bind. rewrite Hbody. cbn. rewrite IH. cbn.
    unfold set_page. cbn. by rewrite <- app_assoc.
Qed.

Lemma wp_for_each_emit {A} (f : A -> element pil_image) (c : container) (body : A -> M unit) xs Q w :
  (forall x w', body x w' = emit c (f x) w') ->
  Q (Ok tt) (set_page w (page w ++ map (fun x => (c, f x)) xs)) ->
  wp (for_each xs body) Q w.
Proof. intros Hbody HQ. unfold wp. by rewrite (for_each_emit f c). Qed.

(** The drawing loop changes the buffer it is given, and nothing else. *)
Lemma draw_faces_run l a faces color w :
  heap w !! l = Some a ->
  draw_faces l faces color w =
    (loop_result (draw_all a faces color).2,
     set_heap w (<[l := (draw_all a faces color).1]> (heap w))).
Proof.
  unfold draw_faces. revert a w.
  induction faces as [| [[[x y] wd] ht] rest IH]; intros a [h p c] Hl; cbn in *.
  - unfold ret, set_heap. cbn. by rewrite insert_id.
  - unfold bind at 1. unfold cv2_rectangle at 1. unfold bind, load, lib, store. cbn.
    rewrite Hl.
    destruct (rectangle a (x, y) (int32_add x wd, int32_add y ht) color 2) as [a' | e] eqn:Hr.
    + cbn. rewrite (IH a'); cbn; [| apply lookup_insert_eq].
      unfold set_heap. cbn. by rewrite insert_insert_eq.
    + cbn. unfold set_heap. cbn. by rewrite insert_id.
Qed.

Lemma wp_draw_faces l a faces color Q w :
  heap w !! l = Some a ->
  Q (loop_result (draw_all a faces color).2)
    (set_heap w (<[l := (draw_all a faces color).1]> (heap w))) ->
  wp (draw_faces l faces color) Q w.
Proof. intros Hl HQ. unfold wp. by rewrite (draw_faces_run l a). Qed.

End Rules.

(** A fresh object is none of those already in the store. *)
Ltac fresh_facts H :=
  repeat (apply lookup_insert_None in H; destruct H as [H ?]).

Ltac solve_lookup :=
  cbv beta iota delta [set_page set_heap set_calls heap page calls];
  first [ eassumption
        | repeat (rewrite lookup_insert_ne by congruence);
          first [ apply lookup_insert_eq | eassumption ] ].

(** One step of a run. *)
Ltac wp_step :=
  lazymatch goal with
  | |- wp (bind _ _) _ _ => apply wp_bind
  | |- wp (ret _) _ _ => apply wp_ret
  | |- wp (lib ?r) _ _ =>
      apply wp_lib;
      first [ match goal with H : r = _ |- _ => rewrite H end | destruct r eqn:? ]
  | |- wp (emit _ _) _ _ => apply wp_emit
  | |- wp (log_call _) _ _ => apply wp_log_call
  | |- wp (alloc _) _ _ =>
      let H := fresh "Hfresh" in apply wp_alloc; intros ? H; cbn in H; fresh_facts H
  | |- wp (load _) _ _ =>
      first [ eapply wp_load_some; [solve_lookup |]
            | apply wp_load; destruct (heap _ !! _) eqn:? ]
  | |- wp (store _ _) _ _ => apply wp_store
  | |- wp (try_except _ _) _ _ => apply wp_try_except
  | |- wp (draw_faces _ _ _) _ _ => eapply wp_draw_faces; [solve_lookup |]
  | |- wp (for_each (enumerate_from _ _) _) _ _ =>
      eapply (wp_for_each_emit (fun '(i, r) => WriteEl (face_line i r)) Page);
      [intros [? ?] ?; reflexivity |]
  | |- wp (if ?b then _ else _) _ _ => destruct b eqn:?
  | |- wp (match ?x with _ => _ end) _ _ =>
      first [ match goal with H : x = _ |- _ => rewrite H end | destruct x eqn:? ]
  end; cbv beta iota delta [set_page set_heap set_calls heap page calls].

Ltac wp_unfold :=
  lazymatch goal with
  | |- wp (np_array_of _) _ _ => unfold np_array_of
  | |- wp (cv2_cvtColor _ _) _ _ => unfold cv2_cvtColor
  | |- wp (ndarray_copy _) _ _ => unfold ndarray_copy
  | |- wp (cv2_CascadeClassifier _) _ _ => unfold cv2_CascadeClassifier
  | |- wp (cv2_detectMultiScale _ _ _ _ _) _ _ => unfold cv2_detectMultiScale
  | |- wp (cv2_rectangle _ _ _ _ _) _ _ => unfold cv2_rectangle
  | |- wp (Image_fromarray_at _) _ _ => unfold Image_fromarray_at
  | |- wp (st_sidebar_slider_float _ _ _ _ _ _) _ _ => unfold st_sidebar_slider_float
  | |- wp (st_sidebar_slider_int _ _ _ _ _) _ _ => unfold st_sidebar_slider_int
  | |- wp (st_sidebar_color_picker _ _ _) _ _ => unfold st_sidebar_color_picker
  | |- wp (st_file_uploader _ _ _) _ _ => unfold st_file_uploader
  | |- wp (annotate _ _ _) _ _ => unfold annotate
  | |- wp (try_body _ _ _ _ _) _ _ => unfold try_body
  | |- wp (on_exception _) _ _ => unfold on_exception
  | |- wp (detect_block _ _ _ _ _) _ _ => unfold detect_block
  | |- wp placeholder _ _ => unfold placeholder
  | |- wp (script _) _ _ => unfold script
  end.

Ltac wp_loop_case :=
  lazymatch goal with
  | |- match loop_result (draw_all ?a ?fs ?c).2 with _ => _ end =>
      destruct (draw_all a fs c) as [? [? |]] eqn:?; cbn [loop_result fst snd]
  end.

Ltac wp_run := repeat (first [wp_step | wp_unfold | wp_loop_case]).

Ltac unfold_picked :=
  unfold uploaded, picked_colour, picked_scale_factor, picked_min_neighbors in *.

(** Use the equations collected along a run. *)
Ltac rew_lib :=
  repeat match goal with
         | H : ?x = Ok _ |- context [?x] => rewrite H; cbn [rbind]
         | H : ?x = Raise _ |- context [?x] => rewrite H; cbn [rbind]
         end.

(** An element of a page built by appending. *)
Ltac in_page :=
  repeat first [ solve [apply in_or_app; right; left; reflexivity]
               | apply in_or_app; left ].

(** From [wp] to the plain statement about one run. *)
Lemma wp_run_eq `{B : Backend} {A} (m : M A) (Q : result A -> world_t -> Prop) w res w' :
  wp m Q w -> m w = (res, w') -> Q res w'.
Proof. unfold wp. intros HQ Hrun. by rewrite Hrun in HQ. Qed.

Lemma run_outcome `{B : Backend} ses res :
  (script ses world0).1 = res -> exists w, script ses world0 = (res, w).
Proof. destruct (script ses world0) as [r w]. cbn. intros ->. eauto. Qed.

Lemma blind_run :
  exists w, script (B := Ref.blind) Ref.session_green world0 = (Ref.blind_outcome, w).
Proof. apply run_outcome. vm_compute. reflexivity. Qed.

Lemma working_run :
  exists w, script (B := Ref.working) Ref.session_green world0 = (Ref.working_outcome, w).
Proof. apply run_outcome. vm_compute. reflexivity. Qed.

(** * Theorems *)

(** ** The colour conversion *)

(** [int(s, 16)] on some two-character slices: digits in either case, a
    sign or a blank next to one digit; and the literals it refuses. *)
Lemma int16_examples :
  int16 "fF" = Ok 255 /\ int16 "-a" = Ok (-10) /\ int16 " 7" = Ok 7 /\
  int16 "+0" = Ok 0 /\ int16 "" = Raise (ValueError "") /\
  int16 "0x" = Raise (ValueError "0x") /\ int16 "g0" = Raise (ValueError "g0") /\
  int16 "1_" = Raise (ValueError "1_") /\ int16 "_1" = Raise (ValueError "_1").
Proof. repeat split. Qed.

Lemma hex_digit_value_table c v :
  hex_digit_value c = Some v -> In (c, v) hex_digits.
Proof.
  unfold hex_digit_value.
  destruct (List.find (fun p => Ascii.eqb p.1 c) hex_digits) as [[c' v'] |] eqn:Hfind;
    [| discriminate].
  intros [= <-]. apply find_some in Hfind as [Hin Heq].
  apply Ascii.eqb_eq in Heq. cbn in Heq. by subst c'.
Qed.

Lemma hex_digit_value_range c v :
  hex_digit_value c = Some v -> 0 <= v <= 15.
Proof.
  intros H%hex_digit_value_table. unfold hex_digits in H. cbn in H.
  repeat (destruct H as [[= _ <-] | H]; [lia |]). destruct H.
Qed.

Lemma hex_digits_not_hash c v : In (c, v) hex_digits -> Ascii.eqb c "#" = false.
Proof.
  assert (Hall : Forall (fun p => Ascii.eqb p.1 "#" = false) hex_digits)
    by (repeat constructor).
  intros Hin. rewrite Forall_forall in Hall. apply list_elem_of_In in Hin.
  exact (Hall _ Hin).
Qed.

(** Two hexadecimal digits read by [int(_, 16)]. *)
Lemma int16_two_digits c1 v1 c2 v2 :
  In (c1, v1) hex_digits -> In (c2, v2) hex_digits ->
  int16 (String c1 (String c2 "")) = Ok (16 * v1 + v2).
Proof.
  assert (Hall : Forall (fun p1 => Forall (fun p2 =>
            int16 (String p1.1 (String p2.1 "")) = Ok (16 * p1.2 + p2.2))
            hex_digits) hex_digits)
    by (repeat constructor).
  intros H1%list_elem_of_In H2%list_elem_of_In.
  rewrite Forall_forall in Hall. specialize (Hall _ H1).
  rewrite Forall_forall in Hall. exact (Hall _ H2).
Qed.

Lemma hex_to_bgr_six_digits r1 r2 g1 g2 b1 b2 vr1 vr2 vg1 vg2 vb1 vb2 :
  hex_digit_value r1 = Some vr1 -> hex_digit_value r2 = Some vr2 ->
  hex_digit_value g1 = Some vg1 -> hex_digit_value g2 = Some vg2 ->
  hex_digit_value b1 = Some vb1 -> hex_digit_value b2 = Some vb2 ->
  hex_to_bgr (colour_string r1 r2 g1 g2 b1 b2) =
    Ok (16 * vb1 + vb2, 16 * vg1 + vg2, 16 * vr1 + vr2).
Proof.
  intros Hr1%hex_digit_value_table Hr2%hex_digit_value_table
         Hg1%hex_digit_value_table Hg2%hex_digit_value_table
         Hb1%hex_digit_value_table Hb2%hex_digit_value_table.
  unfold hex_to_bgr, colour_string. cbn [lstrip].
  rewrite (hex_digits_not_hash _ _ Hr1).
  change (Ascii.eqb "#" "#") with true. cbn [slice Nat.sub drop_str take_str].
  rewrite (int16_two_digits _ _ _ _ Hr1 Hr2). cbn [rbind].
  rewrite (int16_two_digits _ _ _ _ Hg1 Hg2). cbn [rbind].
  rewrite (int16_two_digits _ _ _ _ Hb1 Hb2). reflexivity.
Qed.

(** C1.  A colour string [#RRGGBB] of six hexadecimal digits has seven
    characters and converts to the triple (B, G, R), each channel being the
    8-bit value of its pair of digits; [#00FF00] gives (0, 255, 0). *)
Theorem hex_to_bgr_RRGGBB (r1 r2 g1 g2 b1 b2 : ascii) (vr1 vr2 vg1 vg2 vb1 vb2 : Z) :
  hex_digit_value r1 = Some vr1 -> hex_digit_value r2 = Some vr2 ->
  hex_digit_value g1 = Some vg1 -> hex_digit_value g2 = Some vg2 ->
  hex_digit_value b1 = Some vb1 -> hex_digit_value b2 = Some vb2 ->
  let R := 16 * vr1 + vr2 in
  let G := 16 * vg1 + vg2 in
  let B := 16 * vb1 + vb2 in
  String.length (colour_string r1 r2 g1 g2 b1 b2) = 7%nat /\
  hex_to_bgr (colour_string r1 r2 g1 g2 b1 b2) = Ok (B, G, R) /\
  (0 <= R <= 255 /\ 0 <= G <= 255 /\ 0 <= B <= 255) /\
  hex_to_bgr "#00FF00" = Ok (0, 255, 0).
Proof.
  intros Hr1 Hr2 Hg1 Hg2 Hb1 Hb2 R G B.
  pose proof (hex_digit_value_range _ _ Hr1). pose proof (hex_digit_value_range _ _ Hr2).
  pose proof (hex_digit_value_range _ _ Hg1). pose proof (hex_digit_value_range _ _ Hg2).
  pose proof (hex_digit_value_range _ _ Hb1). pose proof (hex_digit_value_range _ _ Hb2).
  split; [reflexivity |]. split; [| split; [subst R G B; lia | reflexivity]].
  subst R G B. by apply hex_to_bgr_six_digits.
Qed.

Lemma hex_to_bgr_RRGGBB_witness :
  hex_to_bgr "#1e90FF" = Ok (255, 144, 30).
Proof.
  exact (proj1 (proj2 (hex_to_bgr_RRGGBB "1" "e" "9" "0" "F" "F" 1 14 9 0 15 15
                         eq_refl eq_refl eq_refl eq_refl eq_refl eq_refl))).
Defined.

(** ** What the detector is asked *)

Section Calls.

Context {B : Backend}.

(** Every call recorded by a run satisfies [P], provided the two calls the
    script can make do. *)
Lemma script_calls (P : call ndarray -> Prop) ses w :
  (forall p, P (CallCascadeClassifier p)) ->
  (forall a, P (CallDetectMultiScale a (picked_scale_factor ses)
                  (picked_min_neighbors ses) (30, 30))) ->
  Forall P (calls w) ->
  wp (script ses) (fun _ w' => Forall P (calls w')) w.
Proof.
  intros Hc Hd Hw. destruct w as [h p c]. cbn in Hw. unfold_picked.
  wp_run; cbn [calls]; auto.
  all: repeat (apply Forall_app; split; auto).
Qed.


End Calls.


(** ** Failures inside the [try] block *)

Section Failures.

Context {B : Backend}.

Lemma ingest_inv f image bgr :
  ingest f = Ok (image, bgr) ->
  exists arr, Image_open f = Ok image /\ np_array image = Ok arr /\
              cvtColor arr COLOR_RGB2BGR = Ok bgr.
Proof.
  unfold ingest. destruct (Image_open f) as [im |]; cbn; [| discriminate].
  destruct (np_array im) as [arr |] eqn:Harr; cbn; [| discriminate].
  destruct (cvtColor arr COLOR_RGB2BGR) as [b |] eqn:Hb; cbn; [| discriminate].
  intros [= <- <-]. eauto.
Qed.

Lemma load_cascade_cases r :
  load_cascade = r ->
  (exists e, haarcascades = Raise e /\ r = Raise e) \/
  (exists dir, haarcascades = Ok dir /\
     CascadeClassifier (dir ++ "haarcascade_frontalface_default.xml") = r).
Proof.
  unfold load_cascade. destruct haarcascades as [dir | e]; cbn; intros <-; eauto.
Qed.

End Failures.

(** C5.  When the detector cannot be set up for an uploaded, decodable
    image (the specification's ConfigurationError), the run does not raise:
    the page shows what precedes the [try] block, then the error message
    carrying the exception's text and the hint, then the footer, so the
    script has run to its last line; the [try] block yields nothing, and
    the cascade and the detector were each called at most once (no retry).
    A run starts from [world0] and takes nothing from an earlier one. *)
Theorem detector_unavailable_is_reported `{B : Backend} ses f image bgr e :
  uploaded ses = Some f ->
  ingest f = Ok (image, bgr) ->
  detector_unavailable ses bgr e ->
  exists opencv_image w,
    script ses world0 = (Ok (Some (image, opencv_image, None)), w) /\
    page w = (front_matter ++ original_column image ++ error_report e)%list /\
    (length (List.filter is_init_call (calls w)) <= 1)%nat /\
    (length (List.filter is_detect_call (calls w)) <= 1)%nat.
Proof.
  intros Hup (arr & Hopen & Harr & Hbgr)%ingest_inv Hdet.
  enough (wp (script ses) (fun res w =>
            exists opencv_image,
              res = Ok (Some (image, opencv_image, None)) /\
              page w = (front_matter ++ original_column image ++ error_report e)%list /\
              (length (List.filter is_init_call (calls w)) <= 1)%nat /\
              (length (List.filter is_detect_call (calls w)) <= 1)%nat) world0) as Hwp.
  { unfold wp in Hwp. destruct (script ses world0) as [res w]. cbn in Hwp.
    destruct Hwp as (oi & -> & ?). eauto. }
  unfold world0.
  destruct Hdet as [Hload | (c & g & Hload & Hgray & Hdetect)];
    apply load_cascade_cases in Hload as [(e' & Hdir & [= <-]) | (dir & Hdir & Hcc)];
    unfold_picked; wp_run; eexists; (split; [reflexivity |]); (split; [reflexivity |]); cbn; lia.
Qed.

Lemma detector_unavailable_is_reported_witness :
  exists e opencv_image w,
    detector_unavailable (B := Ref.broken) Ref.session_green Ref.red_bgr e /\
    script (B := Ref.broken) Ref.session_green world0
      = (Ok (Some (Ref.red_image, opencv_image, None)), w) /\
    page w = (front_matter ++ original_column (B := Ref.broken) Ref.red_image ++
              error_report (B := Ref.broken) e)%list.
Proof.
  assert (Hun : detector_unavailable (B := Ref.broken) Ref.session_green Ref.red_bgr
                  (Ref.cv2_error
                     "(-215:Assertion failed) !empty() in function 'detectMultiScale'")).
  { right. eexists _, _. repeat split; vm_compute; reflexivity. }
  destruct (detector_unavailable_is_reported (B := Ref.broken) Ref.session_green
              Ref.red_6x6 Ref.red_image Ref.red_bgr _ eq_refl eq_refl Hun)
    as (oi & w & Hrun & Hpage & _).
  eauto 6.
Defined.

Section Colour_failures.

Context {B : Backend}.

Lemma is_hex_digit_value c : is_hex_digit c = true -> exists v, hex_digit_value c = Some v.
Proof. unfold is_hex_digit. destruct (hex_digit_value c); [eauto | discriminate]. Qed.

(** Only a malformed string can make the conversion raise. *)
Lemma hex_to_bgr_raises_malformed s e :
  hex_to_bgr s = Raise e -> well_formed_colour s = false.
Proof.
  intros Hraise. destruct (well_formed_colour s) eqn:Hwf; [| reflexivity].
  exfalso. unfold well_formed_colour in Hwf.
  destruct s as [| h [| r1 [| r2 [| g1 [| g2 [| b1 [| b2 [| ? ?]]]]]]]]; try discriminate.
  repeat (apply andb_prop in Hwf as [Hwf ?]).
  apply Ascii.eqb_eq in Hwf as ->.
  repeat match goal with
         | H : is_hex_digit _ = true |- _ => apply is_hex_digit_value in H as [? H]
         end.
  match goal with
  | H1 : hex_digit_value r1 = _, H2 : hex_digit_value r2 = _,
    H3 : hex_digit_value g1 = _, H4 : hex_digit_value g2 = _,
    H5 : hex_digit_value b1 = _, H6 : hex_digit_value b2 = _ |- _ =>
      pose proof (hex_to_bgr_six_digits _ _ _ _ _ _ _ _ _ _ _ _ H1 H2 H3 H4 H5 H6) as Hok
  end.
  unfold colour_string in Hok. congruence.
Qed.

End Colour_failures.

(** C6, as amended.  The conversion checks nothing.  When it raises (which
    only a malformed string can cause) in a run whose upload decodes and
    whose detection goes through, the exception does not leave the script:
    the handler of the [try] block catches it and the page is the very one
    shown when the detector is unavailable, with this exception's text. *)
Theorem malformed_colour_is_reported `{B : Backend} ses f image bgr faces e :
  uploaded ses = Some f ->
  ingest f = Ok (image, bgr) ->
  detects ses bgr faces ->
  hex_to_bgr (picked_colour ses) = Raise e ->
  well_formed_colour (picked_colour ses) = false /\
  exists opencv_image w,
    script ses world0 = (Ok (Some (image, opencv_image, None)), w) /\
    page w = (front_matter ++ original_column image ++ error_report e)%list.
Proof.
  intros Hup (arr & Hopen & Harr & Hbgr)%ingest_inv (c & g & Hload & Hgray & Hdet) Hhex.
  split; [by eapply hex_to_bgr_raises_malformed |].
  enough (wp (script ses) (fun res w =>
            exists opencv_image,
              res = Ok (Some (image, opencv_image, None)) /\
              page w = (front_matter ++ original_column image ++ error_report e)%list)
            world0) as Hwp.
  { unfold wp in Hwp. destruct (script ses world0) as [res w]. cbn in Hwp.
    destruct Hwp as (oi & -> & ?). eauto. }
  unfold world0.
  apply load_cascade_cases in Hload as [(e' & _ & [=]) | (dir & Hdir & Hcc)].
  unfold_picked; wp_run; eexists; split; reflexivity.
Qed.

Lemma malformed_colour_is_reported_witness :
  well_formed_colour "#GG0000" = false /\
  exists opencv_image w,
    script (B := Ref.working) Ref.session_bad_colour world0
      = (Ok (Some (Ref.red_image, opencv_image, None)), w) /\
    page w = (front_matter ++ original_column (B := Ref.working) Ref.red_image ++
              error_report (B := Ref.working) (ValueError "GG"))%list.
Proof.
  apply (malformed_colour_is_reported (B := Ref.working) Ref.session_bad_colour
           Ref.red_6x6 Ref.red_image Ref.red_bgr [(1, 1, 4, 4)] (ValueError "GG")).
  - reflexivity.
  - reflexivity.
  - eexists _, _. repeat split; vm_compute; reflexivity.
  - reflexivity.
Defined.

(** C6, as the specification has it, fails: with the malformed colour
    [#GG0000] the run does not raise; the [ValueError] is caught and shown
    under the message written for a detector that fails to load. *)
Lemma malformed_colour_not_unhandled :
  well_formed_colour "#GG0000" = false /\
  (forall e w,
      script (B := Ref.working) Ref.session_bad_colour world0 <> (Raise e, w)) /\
  exists opencv_image w,
    script (B := Ref.working) Ref.session_bad_colour world0
      = (Ok (Some (Ref.red_image, opencv_image, None)), w) /\
    In (Page, ErrorEl
          "❌ Error loading face detection model: invalid literal for int() with base 16: 'GG'")
       (page w).
Proof.
  split; [reflexivity |]. split.
  - intros e w Hrun. vm_compute in Hrun. discriminate Hrun.
  - eexists _, _. split; [vm_compute; reflexivity |]. cbn. tauto.
Qed.

(** Malformed strings the conversion accepts: a missing digit, extra
    characters, signs and blanks. *)
Lemma malformed_colours_accepted :
  (well_formed_colour "#00FF0" = false /\ hex_to_bgr "#00FF0" = Ok (0, 255, 0)) /\
  (well_formed_colour "#00FF00AA" = false /\ hex_to_bgr "#00FF00AA" = Ok (0, 255, 0)) /\
  (well_formed_colour "#+1-2 3" = false /\ hex_to_bgr "#+1-2 3" = Ok (3, -2, 1)).
Proof. repeat split. Qed.

(** ** Runs that find no face *)

Section No_face.

Context {B : Backend}.

Lemma zero_regions_run ses :
  wp (script ses) (fun res w =>
    forall image opencv_image r,
      res = Ok (Some (image, opencv_image, Some r)) -> v_faces r = [] ->
      channel_order_round_trip image = Ok (v_result_pil r) /\
      (exists bgr, heap w !! opencv_image = Some bgr /\
                   heap w !! v_result_image r = Some bgr) /\
      In (Column 2 1, ImageEl (v_result_pil r) "Detected 0 face(s)") (page w) /\
      In (Column 3 0, Metric "Faces Detected" (MInt 0)) (page w) /\
      In (Page, Warning
            "⚠️ No faces were detected. Try adjusting the parameters in the sidebar.")
         (page w)) world0.
Proof.
  unfold world0. wp_run; intros image oi r [=]; subst; cbn [v_faces]; intros ->;
    try discriminate.
  match goal with H : draw_all _ [] _ = _ |- _ => cbn in H; injection H as <- end.
  cbn [v_result_pil v_result_image].
  split; [unfold channel_order_round_trip; by rew_lib |].
  split.
  { eexists. split; solve_lookup. }
  repeat split; in_page.
Qed.

End No_face.

(** C3, as amended.  In a run that gets to the end of the [try] block with
    no region detected, the image shown and offered for download is the
    uploaded image taken from RGB to BGR and back (the grayscale image is
    only what the detector is given); the annotated buffer holds the same
    pixels as the BGR original, no rectangle having been drawn; and the page
    reports zero faces. *)
Theorem zero_regions_output `{B : Backend} ses image opencv_image r w :
  script ses world0 = (Ok (Some (image, opencv_image, Some r)), w) ->
  v_faces r = [] ->
  channel_order_round_trip image = Ok (v_result_pil r) /\
  (exists bgr, heap w !! opencv_image = Some bgr /\
               heap w !! v_result_image r = Some bgr) /\
  In (Column 2 1, ImageEl (v_result_pil r) "Detected 0 face(s)") (page w) /\
  In (Column 3 0, Metric "Faces Detected" (MInt 0)) (page w) /\
  In (Page, Warning
        "⚠️ No faces were detected. Try adjusting the parameters in the sidebar.")
     (page w).
Proof.
  intros Hrun Hfaces.
  exact (wp_run_eq _ _ _ _ _ (zero_regions_run ses) Hrun _ _ _ eq_refl Hfaces).
Qed.

Lemma zero_regions_output_witness :
  exists image opencv_image r w,
    script (B := Ref.blind) Ref.session_green world0
      = (Ok (Some (image, opencv_image, Some r)), w) /\
    v_faces r = [] /\
    channel_order_round_trip (B := Ref.blind) image = Ok (v_result_pil r) /\
    In (Column 3 0, Metric "Faces Detected" (MInt 0)) (page w).
Proof.
  destruct blind_run as [w Hrun]. unfold Ref.blind_outcome in Hrun.
  eexists _, _, _, w. split; [exact Hrun |]. split; [reflexivity |].
  destruct (zero_regions_output (B := Ref.blind) _ _ _ _ _ Hrun eq_refl)
    as (Htrip & _ & _ & Hmetric & _).
  split; [exact Htrip | exact Hmetric].
Defined.

(** C3, as the specification has it, fails: for the all-red picture and a
    detector that finds nothing, the image shown is still red, whereas its
    grayscale-to-color round trip is gray. *)
Lemma zero_regions_not_gray_round_trip :
  exists image opencv_image r w,
    script (B := Ref.blind) Ref.session_green world0
      = (Ok (Some (image, opencv_image, Some r)), w) /\
    v_faces r = [] /\
    gray_to_color_round_trip (B := Ref.blind) image <> Ok (v_result_pil r) /\
    v_result_pil r = ("", Ref.with_samples Ref.red_image.2 3 (Ref.solid 36 255 0 0)) /\
    gray_to_color_round_trip (B := Ref.blind) image
      = Ok ("", Ref.with_samples Ref.red_image.2 3 (Ref.solid 36 76 76 76)).
Proof.
  destruct blind_run as [w Hrun]. unfold Ref.blind_outcome in Hrun.
  eexists _, _, _, w. split; [exact Hrun |]. split; [reflexivity |].
  split; [vm_compute; discriminate |]. split; vm_compute; reflexivity.
Qed.

(** ** Annotation *)

(** Inside a picture (coordinates far below 2^31) the int32 sum is the plain
    sum: the rectangle's far corner is (x + w, y + h). *)
Lemma int32_add_plain a b :
  - 2 ^ 31 <= a + b < 2 ^ 31 -> int32_add a b = a + b.
Proof.
  intros Hrange. unfold int32_add.
  rewrite Z.mod_small by lia. lia.
Qed.

Section Original.

Context {B : Backend}.

(** After a whole run the BGR array made from the upload is as it was made;
    when the [try] block ran to its end, the annotated buffer is another
    object and holds the drawing. *)
Lemma original_kept_run ses :
  wp (script ses) (fun res w =>
    forall image opencv_image r,
      res = Ok (Some (image, opencv_image, r)) ->
      exists arr bgr,
        np_array image = Ok arr /\ cvtColor arr COLOR_RGB2BGR = Ok bgr /\
        heap w !! opencv_image = Some bgr /\
        forall r', r = Some r' ->
          v_result_image r' <> opencv_image /\
          (draw_all bgr (v_faces r') (v_bgr_color r')).2 = None /\
          heap w !! v_result_image r'
            = Some (draw_all bgr (v_faces r') (v_bgr_color r')).1) world0.
Proof.
  unfold world0. wp_run; intros image oi r [=]; subst;
    eexists _, _; (split; [eassumption |]); (split; [eassumption |]);
    (split; [solve_lookup |]); intros r' [=]; subst;
    cbn [v_result_image v_faces v_bgr_color];
    match goal with H : draw_all _ _ _ = _ |- _ => rewrite H; cbn [fst snd] end;
    (split; [congruence |]); (split; [reflexivity | solve_lookup]).
Qed.

Lemma annotate_run (w : world_t) opencv_image a rect_color bgr faces :
  heap w !! opencv_image = Some a ->
  hex_to_bgr rect_color = Ok bgr ->
  wp (annotate opencv_image rect_color faces) (fun res w' =>
    exists result_image,
      res = match (draw_all a faces bgr).2 with
            | None => Ok (result_image, bgr)
            | Some e => Raise e
            end /\
      heap w !! result_image = None /\
      result_image <> opencv_image /\
      heap w' !! opencv_image = Some a /\
      heap w' !! result_image = Some (draw_all a faces bgr).1 /\
      (forall l, l <> result_image -> heap w' !! l = heap w !! l) /\
      page w' = page w /\ calls w' = calls w) w.
Proof.
  intros Ha Hhex. destruct w as [h p c]. cbn in Ha.
  wp_run; eexists; cbn [heap page calls fst snd];
    (split; [reflexivity |]); (split; [eassumption |]); (split; [congruence |]);
    (split; [solve_lookup |]); (split; [solve_lookup |]);
    (split; [| split; reflexivity]);
    intros l' Hl'; by rewrite !lookup_insert_ne by congruence.
Qed.

(** Where the far corners are representable, the loop's rectangles are the
    specification's: from (x, y) to (x + w, y + h). *)
Lemma draw_all_outline a faces color :
  Forall far_corner_fits faces -> draw_all a faces color = outline_all a faces color.
Proof.
  intros Hfit. revert a.
  induction Hfit as [| [[[x y] w] h] rest [Hx Hy] _ IH]; intros a; [reflexivity |].
  cbn [draw_all outline_all]. rewrite !int32_add_plain by assumption.
  destruct (rectangle a (x, y) (x + w, y + h) color 2); [apply IH | reflexivity].
Qed.

End Original.

(** C4.  The annotation step (lines 98-102), for any buffer, colour string
    that converts, and list of regions: it creates a new buffer, draws into
    it ([draw_all]), and leaves the buffer it was given, every other buffer,
    the page and the call log as they were; this also holds when a drawing
    call raises part-way.  For regions whose far corner is representable in
    32 bits (every region inside a picture) the new buffer is the
    specification's [outline_all]: one rectangle of thickness 2 per region,
    from (x, y) to (x + w, y + h), in the order of the list.  And after any
    whole run of the script the BGR array made from the upload still holds
    the pixels it was made with, the annotated buffer being another object
    that holds those outlines drawn on the same pixels. *)
Theorem annotation_draws_on_a_copy `{B : Backend} (w : world_t) (opencv_image : loc)
    (a : ndarray) (rect_color : string) (bgr : Z * Z * Z) (faces : list region) :
  heap w !! opencv_image = Some a ->
  hex_to_bgr rect_color = Ok bgr ->
  (exists result_image w',
     annotate opencv_image rect_color faces w =
       (match (draw_all a faces bgr).2 with
        | None => Ok (result_image, bgr)
        | Some e => Raise e
        end, w') /\
     heap w !! result_image = None /\
     result_image <> opencv_image /\
     heap w' !! opencv_image = Some a /\
     heap w' !! result_image = Some (draw_all a faces bgr).1 /\
     (forall l, l <> result_image -> heap w' !! l = heap w !! l) /\
     page w' = page w /\ calls w' = calls w /\
     (Forall far_corner_fits faces ->
        draw_all a faces bgr = outline_all a faces bgr /\
        heap w' !! result_image = Some (outline_all a faces bgr).1)) /\
  (forall ses image original r w_end,
     script ses world0 = (Ok (Some (image, original, r)), w_end) ->
     exists arr original_pixels,
       np_array image = Ok arr /\ cvtColor arr COLOR_RGB2BGR = Ok original_pixels /\
       heap w_end !! original = Some original_pixels /\
       forall r', r = Some r' ->
         v_result_image r' <> original /\
         (draw_all original_pixels (v_faces r') (v_bgr_color r')).2 = None /\
         heap w_end !! v_result_image r'
           = Some (draw_all original_pixels (v_faces r') (v_bgr_color r')).1 /\
         (Forall far_corner_fits (v_faces r') ->
            (outline_all original_pixels (v_faces r') (v_bgr_color r')).2 = None /\
            heap w_end !! v_result_image r'
              = Some (outline_all original_pixels (v_faces r') (v_bgr_color r')).1)).
Proof.
  intros Ha Hhex. split.
  - pose proof (annotate_run w opencv_image a rect_color bgr faces Ha Hhex) as Hwp.
    unfold wp in Hwp. destruct (annotate opencv_image rect_color faces w) as [res w'].
    cbn in Hwp.
    destruct Hwp as (l & -> & Hfresh & Hne & Hold & Hnew & Hframe & Hpage & Hcalls).
    exists l, w'. repeat (split; [assumption || reflexivity |]).
    intros Hfit. rewrite <- (draw_all_outline a faces bgr Hfit). by split.
  - intros ses image original r w_end Hrun.
    destruct (wp_run_eq _ _ _ _ _ (original_kept_run ses) Hrun _ _ _ eq_refl)
      as (arr & px & Harr & Hbgr & Horig & Hres).
    exists arr, px. repeat (split; [assumption |]).
    intros r' Hr'. destruct (Hres r' Hr') as (Hne & Hdone & Hnew).
    repeat (split; [assumption |]).
    intros Hfit. rewrite <- (draw_all_outline px _ _ Hfit). by split.
Qed.

Lemma annotation_draws_on_a_copy_witness :
  exists result_image w',
    annotate (B := Ref.working) 1%positive "#00FF00" [(1, 1, 4, 4)]
      {| heap := {[1%positive := Ref.red_bgr]}; page := []; calls := [] |}
      = (Ok (result_image, (0, 255, 0)), w') /\
    heap w' !! 1%positive = Some Ref.red_bgr /\
    heap w' !! result_image = Some Picture.outlined_red_bgr /\
    Ref.draw Ref.red_bgr (1, 1) (5, 5) (0, 255, 0) 2 = Ok Picture.outlined_red_bgr.
Proof.
  destruct (annotation_draws_on_a_copy (B := Ref.working)
              {| heap := {[1%positive := Ref.red_bgr]}; page := []; calls := [] |}
              1%positive Ref.red_bgr "#00FF00" (0, 255, 0) [(1, 1, 4, 4)]
              (lookup_singleton_eq _ _) eq_refl)
    as ((l & w' & Hrun & _ & _ & Hold & _ & _ & _ & _ & Hfit) & _).
  assert (Forall far_corner_fits [(1, 1, 4, 4)]) as Hin.
  { repeat constructor; cbn; lia. }
  destruct (Hfit Hin) as [_ Hnew].
  exists l, w'. split; [exact Hrun |]. split; [exact Hold |].
  split; [exact Hnew | reflexivity].
Defined.

(** ** Parameter ranges *)

(** C9.  With sliders that keep to the bounds they are declared with, the
    scale factor the script reads lies in [1.1, 2.0] and the neighbour count
    in [1, 10], and every call of the detector made by a run receives values
    in these ranges: the script hands the sliders' values on unchanged and
    validates nothing itself. *)
Theorem detection_parameters_in_range `{B : Backend} (ses : session) :
  sliders_respect_bounds ses ->
  (PrimFloat.leb 1.1 (picked_scale_factor ses) = true /\
   PrimFloat.leb (picked_scale_factor ses) 2.0 = true /\
   1 <= picked_min_neighbors ses <= 10) /\
  Forall parameters_in_range (calls (script ses world0).2).
Proof.
  intros [Hfloat Hint].
  assert (Hrange : PrimFloat.leb 1.1 (picked_scale_factor ses) = true /\
                   PrimFloat.leb (picked_scale_factor ses) 2.0 = true /\
                   1 <= picked_min_neighbors ses <= 10).
  { unfold picked_scale_factor, picked_min_neighbors.
    destruct (Hfloat "Scale Factor" 1.1 2.0 1.3 0.1)%float as [Hlo Hhi];
      [reflexivity | reflexivity |].
    pose proof (Hint "Min Neighbors" 1 10 5 ltac:(lia)). auto. }
  split; [exact Hrange |].
  apply (script_calls parameters_in_range ses world0);
    [intros p; exact I | intros a; exact Hrange | constructor].
Qed.

Lemma detection_parameters_in_range_witness :
  Forall (parameters_in_range (B := Ref.working))
    (calls (script (B := Ref.working) Ref.session_green world0).2).
Proof.
  refine (proj2 (detection_parameters_in_range (B := Ref.working) Ref.session_green _)).
  split.
  - intros label lo hi value step Hlo Hhi. cbn. auto.
  - intros label lo hi value Hrange. cbn. exact Hrange.
Defined.

(** ** The download *)

Section Download.

Context {B : Backend} {L : BackendLaws B}.

Lemma transpose_transpose p : transpose (transpose p) = p.
Proof. by destruct p. Qed.

Lemma draw_all_shape a faces color a' :
  draw_all a faces color = (a', None) -> shape2 a' = shape2 a.
Proof.
  revert a. induction faces as [| [[[x y] wd] ht] rest IH]; intros a; cbn.
  - by intros [= <-].
  - destruct (rectangle a (x, y) (int32_add x wd, int32_add y ht) color 2) as [b | e] eqn:Hr;
      [| discriminate].
    intros Hrest. rewrite (IH _ Hrest). by eapply rectangle_shape.
Qed.

Lemma is_digit_digit_char d : 0 <= d <= 9 -> is_digit (digit_char d) = true.
Proof.
  intros Hd.
  assert (Hcases : d = 0 \/ d = 1 \/ d = 2 \/ d = 3 \/ d = 4 \/ d = 5 \/ d = 6 \/
                   d = 7 \/ d = 8 \/ d = 9) by lia.
  repeat (destruct Hcases as [-> | Hcases]; [reflexivity |]). by subst.
Qed.

Lemma is_digit_mod10 n : is_digit (digit_char (n mod 10)) = true.
Proof. apply is_digit_digit_char. pose proof (Z.mod_pos_bound n 10). lia. Qed.

(** The stamp always has the shape [YYYYMMDD_HHMMSS]. *)
Lemma strftime_is_timestamp dt : is_timestamp (strftime_Ymd_HMS dt) = true.
Proof.
  unfold strftime_Ymd_HMS, pad4, pad2.
  cbv beta iota fix delta [String.append]. cbn [is_timestamp forallb].
  rewrite !is_digit_mod10. reflexivity.
Qed.

Lemma ord_digit_char d : 0 <= d <= 9 -> ord (digit_char d) - 48 = d.
Proof.
  intros Hd.
  assert (Hcases : d = 0 \/ d = 1 \/ d = 2 \/ d = 3 \/ d = 4 \/ d = 5 \/ d = 6 \/
                   d = 7 \/ d = 8 \/ d = 9) by lia.
  repeat (destruct Hcases as [-> | Hcases]; [reflexivity |]). by subst.
Qed.

Lemma ord_digit_mod10 n : ord (digit_char (n mod 10)) - 48 = n mod 10.
Proof. apply ord_digit_char. pose proof (Z.mod_pos_bound n 10). lia. Qed.

Lemma read_pad2 n : 0 <= n <= 99 -> read_decimal 0 (pad2 n) = n.
Proof.
  intros Hn. unfold pad2. cbn [read_decimal]. rewrite !ord_digit_mod10.
  Z.div_mod_to_equations. lia.
Qed.

Lemma read_pad4 n : 0 <= n <= 9999 -> read_decimal 0 (pad4 n) = n.
Proof.
  intros Hn. unfold pad4, pad2. cbn [read_decimal]. rewrite !ord_digit_mod10.
  Z.div_mod_to_equations. lia.
Qed.

(** For a valid clock the stamp reads back as the clock's fields. *)
Lemma read_strftime dt : valid_clock dt -> read_timestamp (strftime_Ymd_HMS dt) = dt.
Proof.
  intros (Hy & Hm & Hd & Hh & Hn & Hs). destruct dt as [y m d h n s]. cbn in *.
  unfold read_timestamp, strftime_Ymd_HMS. cbn [year month day hour minute second].
  assert (Hcut : forall j k, slice (pad4 y ++ pad2 m ++ pad2 d ++ "_" ++ pad2 h ++
                                       pad2 n ++ pad2 s) j k
                             = slice (String.append (pad4 y) (String.append (pad2 m)
                                 (String.append (pad2 d) (String "_" (String.append (pad2 h)
                                   (String.append (pad2 n) (pad2 s))))))) j k)
    by reflexivity.
  rewrite !Hcut. clear Hcut. unfold pad4, pad2.
  cbv beta iota fix delta [String.append slice drop_str take_str Nat.sub].
  cbn [read_decimal]. rewrite !ord_digit_mod10.
  f_equal; Z.div_mod_to_equations; lia.
Qed.

Lemma download_run ses :
  wp (script ses) (fun res w =>
    forall image opencv_image r,
      res = Ok (Some (image, opencv_image, Some r)) ->
      (exists decoded, Image_open (v_png r) = Ok decoded /\
         Image_format decoded = "PNG" /\ Image_size decoded = Image_size image) /\
      In (Page, DownloadButton "📥 Download Image with Detected Faces"
                  (v_png r) (v_filename r) "image/png") (page w) /\
      v_filename r = "face_detection_result_" ++ strftime_Ymd_HMS (clock ses) ++ ".png")
    world0.
Proof.
  unfold world0. wp_run; intros image oi r [=]; subst;
    cbn [v_png v_filename]; (split; [| split; [in_page | reflexivity]]).
  all: match goal with
       | Hsave : Image_save ?p "PNG" = Ok _,
         Hfrom : Image_fromarray ?rgb = Ok ?p,
         Hrgb : cvtColor ?n COLOR_BGR2RGB = Ok ?rgb,
         Hdraw : draw_all ?bgr _ _ = (?n, None),
         Hbgr : cvtColor ?arr COLOR_RGB2BGR = Ok ?bgr,
         Harr : np_array ?im = Ok ?arr
         |- exists _, _ /\ _ /\ _ = Image_size ?im =>
           destruct (save_png_then_open _ _ Hsave) as (decoded & Hopen & Hfmt & Hsize);
           exists decoded; split; [exact Hopen |]; split; [exact Hfmt |];
           rewrite Hsize, (fromarray_size _ _ Hfrom), (cvtColor_swap_shape _ _ Hrgb),
             (draw_all_shape _ _ _ _ Hdraw), (cvtColor_swap_shape _ _ Hbgr),
             (np_array_shape _ _ Harr);
           apply transpose_transpose
       end.
Qed.

End Download.

(** The miniature backend keeps the libraries' promises. *)
Lemma ref_backend_laws det installed : BackendLaws (Ref.backend det installed).
Proof.
  split; cbn.
  - intros im a [= <-]. reflexivity.
  - intros a a'. unfold Ref.convert. cbn [Z.eqb COLOR_BGR2RGB Pos.eqb].
    repeat match goal with
           | |- context [if ?b then _ else _] => destruct b
           end; intros [= <-]; reflexivity.
  - intros a pt1 pt2 color t a'. unfold Ref.draw.
    destruct (Ref.chans a =? 3); intros [= <-]; reflexivity.
  - intros a im [= <-]. reflexivity.
  - intros [fmt ras] b. unfold Ref.encode. cbn [snd fst].
    change (String.eqb "PNG" "PNG") with true. cbn [andb].
    destruct (Ref.fits_byte (Ref.rows ras)) eqn:Hr; cbn [andb]; [| discriminate].
    destruct (Ref.fits_byte (Ref.cols ras)) eqn:Hc; cbn [andb]; [| discriminate].
    destruct (Ref.fits_byte (Ref.chans ras)) eqn:Hch; [| discriminate].
    intros [= <-].
    eexists. split; [reflexivity |]. split; [reflexivity |]. cbn.
    assert (Hbyte : forall z, Ref.fits_byte z = true -> Ref.Z_of_byte (Ref.byte_of_Z z) = z).
    { intros z Hz. unfold Ref.fits_byte in Hz. apply andb_prop in Hz as [Hlo Hhi].
      apply Z.leb_le in Hlo. apply Z.ltb_lt in Hhi.
      unfold Ref.Z_of_byte, Ref.byte_of_Z. rewrite Z.mod_small by lia.
      destruct (Byte.of_N (Z.to_N z)) as [b |] eqn:Hb.
      - apply Byte.to_of_N in Hb. rewrite Hb. lia.
      - apply Byte.of_N_None_iff in Hb. lia. }
    by rewrite !Hbyte.
Qed.

(** C8.  In a run that gets to the end of the [try] block, with libraries
    that keep their promises about sizes and files and a clock reading a
    four-digit year: the bytes offered for download open as a PNG image of
    the same size as the uploaded one, and the download button offers them
    under the name face_detection_result_ + stamp + .png, the stamp being the
    clock's reading in the form YYYYMMDD_HHMMSS. *)
Theorem download_is_png_of_source_size `{B : Backend} `{!BackendLaws B}
    ses image opencv_image r w :
  valid_clock (clock ses) ->
  script ses world0 = (Ok (Some (image, opencv_image, Some r)), w) ->
  (exists decoded, Image_open (v_png r) = Ok decoded /\
     Image_format decoded = "PNG" /\ Image_size decoded = Image_size image) /\
  In (Page, DownloadButton "📥 Download Image with Detected Faces"
              (v_png r) (v_filename r) "image/png") (page w) /\
  (exists stamp,
     v_filename r = "face_detection_result_" ++ stamp ++ ".png" /\
     is_timestamp stamp = true /\ read_timestamp stamp = clock ses).
Proof.
  intros Hclock Hrun.
  destruct (wp_run_eq _ _ _ _ _ (download_run ses) Hrun _ _ _ eq_refl)
    as (Hpng & Hbutton & Hname).
  split; [exact Hpng |]. split; [exact Hbutton |].
  exists (strftime_Ymd_HMS (clock ses)).
  split; [exact Hname |]. split; [apply strftime_is_timestamp | by apply read_strftime].
Qed.

Lemma download_is_png_of_source_size_witness :
  exists image opencv_image r w decoded,
    script (B := Ref.working) Ref.session_green world0
      = (Ok (Some (image, opencv_image, Some r)), w) /\
    Image_open (Backend := Ref.working) (v_png r) = Ok decoded /\
    Image_format (Backend := Ref.working) decoded = "PNG" /\
    Image_size (Backend := Ref.working) decoded = (6, 6) /\
    v_filename r = "face_detection_result_20240517_120007.png".
Proof.
  destruct working_run as [w Hrun]. unfold Ref.working_outcome in Hrun.
  assert (Hclock : valid_clock (clock Ref.session_green)) by (cbn; unfold valid_clock; cbn; lia).
  destruct (download_is_png_of_source_size (B := Ref.working)
              (BackendLaws0 := ref_backend_laws Ref.sees_one true)
              Ref.session_green _ _ _ w Hclock Hrun)
    as ((decoded & Hopen & Hfmt & Hsize) & _ & _).
  eexists _, _, _, w, decoded. split; [exact Hrun |].
  split; [exact Hopen |]. split; [exact Hfmt |]. split; [exact Hsize | reflexivity].
Defined.

(** ** Two runs on the same inputs *)

Section Two_runs.

Context {B : Backend}.

Lemma same_world_refl w : same_world w w.
Proof. by repeat split. Qed.

Lemma sim_ret {A} (R : A -> A -> Prop) a1 a2 : R a1 a2 -> sim R (ret a1) (ret a2).
Proof. intros HR w1 w2 Hw. by split. Qed.

Lemma sim_lib {A} (r : result A) : sim eq (lib r) (lib r).
Proof. intros w1 w2 Hw. split; [exact Hw |]. cbn. by destruct r. Qed.

Lemma sim_bind {A C} (R : A -> A -> Prop) (S : C -> C -> Prop) m1 m2 k1 k2 :
  sim R m1 m2 ->
  (forall a1 a2, R a1 a2 -> sim S (k1 a1) (k2 a2)) ->
  sim S (bind m1 k1) (bind m2 k2).
Proof.
  intros Hm Hk w1 w2 Hw. unfold bind. destruct (Hm w1 w2 Hw) as [Hw' Hres].
  destruct (m1 w1) as [[a1 | e1] w1'], (m2 w2) as [[a2 | e2] w2']; cbn in *;
    try contradiction.
  - by apply Hk.
  - by split.
Qed.

Lemma sim_try_except {A} (R : A -> A -> Prop) m1 m2 h1 h2 :
  sim R m1 m2 ->
  (forall e, sim R (h1 e) (h2 e)) ->
  sim R (try_except m1 h1) (try_except m2 h2).
Proof.
  intros Hm Hh w1 w2 Hw. unfold try_except. destruct (Hm w1 w2 Hw) as [Hw' Hres].
  destruct (m1 w1) as [[a1 | e1] w1'], (m2 w2) as [[a2 | e2] w2']; cbn in *;
    try contradiction.
  - by split.
  - subst e2. by apply Hh.
Qed.

Lemma sim_emit c e1 e2 :
  forget_file_name (c, e1) = forget_file_name (c, e2) ->
  sim eq (emit c e1) (emit c e2).
Proof.
  intros He w1 w2 (Hh & Hc & Hp). split; [| reflexivity].
  repeat split; cbn; [exact Hh | exact Hc |].
  rewrite !map_app. cbn [map]. by rewrite Hp, He.
Qed.

Lemma sim_log_call c : sim eq (log_call c) (log_call c).
Proof.
  intros w1 w2 (Hh & Hc & Hp). split; [| reflexivity].
  repeat split; cbn; [exact Hh | by rewrite Hc | exact Hp].
Qed.

Lemma sim_alloc a : sim eq (alloc a) (alloc a).
Proof.
  intros w1 w2 (Hh & Hc & Hp). unfold alloc. cbn. rewrite Hh.
  split; [| reflexivity]. by repeat split.
Qed.

Lemma sim_load l : sim eq (load l) (load l).
Proof.
  intros w1 w2 (Hh & Hc & Hp). unfold load. rewrite Hh.
  destruct (heap w2 !! l); cbn; (split; [by repeat split | reflexivity]).
Qed.

Lemma sim_store l a : sim eq (store l a) (store l a).
Proof.
  intros w1 w2 (Hh & Hc & Hp). unfold store. cbn. rewrite Hh.
  split; [| reflexivity]. by repeat split.
Qed.

Lemma sim_for_each {A} (xs : list A) body1 body2 :
  (forall x, sim eq (body1 x) (body2 x)) ->
  sim eq (for_each xs body1) (for_each xs body2).
Proof.
  intros Hbody. induction xs as [| x rest IH]; cbn [for_each].
  - by apply sim_ret.
  - eapply sim_bind; [apply Hbody | intros _ _ _; exact IH].
Qed.

End Two_runs.

Ltac sim_related :=
  first [ reflexivity
        | assumption
        | exact I
        | progress (unfold same_run, same_block, same_locals in *; cbn);
          first [ reflexivity | assumption | congruence | by repeat split ] ].

Ltac sim_step :=
  lazymatch goal with
  | |- sim _ (bind (try_body _ _ _ _ _) _) (bind _ _) =>
      apply (sim_bind same_locals); [| intros ? ? ?]
  | |- sim _ (bind (detect_block _ _ _ _ _) _) (bind _ _) =>
      apply (sim_bind same_block); [| intros ? ? ?]
  | |- sim _ (bind (match _ with Some _ => _ | None => _ end) _) (bind _ _) =>
      apply (sim_bind same_run); [| intros ? ? ?]
  | |- sim _ (bind _ _) (bind _ _) => apply (sim_bind eq); [| intros ? ? <-]
  | |- sim _ (lib _) (lib _) => apply sim_lib
  | |- sim _ (emit _ _) (emit _ _) => apply sim_emit; reflexivity
  | |- sim _ (log_call _) (log_call _) => apply sim_log_call
  | |- sim _ (alloc _) (alloc _) => apply sim_alloc
  | |- sim _ (load _) (load _) => apply sim_load
  | |- sim _ (store _ _) (store _ _) => apply sim_store
  | |- sim _ (try_except _ _) (try_except _ _) => apply sim_try_except; [| intros ?]
  | |- sim _ (for_each _ _) (for_each _ _) => apply sim_for_each; intros ?
  | |- sim _ (ret _) (ret _) => apply sim_ret; sim_related
  | |- sim _ (if ?b then _ else _) (if ?b then _ else _) => destruct b
  | |- sim _ (match ?x with _ => _ end) (match ?x with _ => _ end) => destruct x
  end.

Ltac sim_unfold :=
  lazymatch goal with
  | |- sim _ (np_array_of _) _ => unfold np_array_of
  | |- sim _ (cv2_cvtColor _ _) _ => unfold cv2_cvtColor
  | |- sim _ (ndarray_copy _) _ => unfold ndarray_copy
  | |- sim _ (cv2_CascadeClassifier _) _ => unfold cv2_CascadeClassifier
  | |- sim _ (cv2_detectMultiScale _ _ _ _ _) _ => unfold cv2_detectMultiScale
  | |- sim _ (cv2_rectangle _ _ _ _ _) _ => unfold cv2_rectangle
  | |- sim _ (Image_fromarray_at _) _ => unfold Image_fromarray_at
  | |- sim _ (st_sidebar_slider_float _ _ _ _ _ _) _ => unfold st_sidebar_slider_float
  | |- sim _ (st_sidebar_slider_int _ _ _ _ _) _ => unfold st_sidebar_slider_int
  | |- sim _ (st_sidebar_color_picker _ _ _) _ => unfold st_sidebar_color_picker
  | |- sim _ (st_file_uploader _ _ _) _ => unfold st_file_uploader
  | |- sim _ (draw_faces _ _ _) _ => unfold draw_faces
  | |- sim _ (annotate _ _ _) _ => unfold annotate
  | |- sim _ (try_body _ _ _ _ _) _ => unfold try_body
  | |- sim _ (on_exception _) _ => unfold on_exception
  | |- sim _ (detect_block _ _ _ _ _) _ => unfold detect_block
  | |- sim _ placeholder _ => unfold placeholder
  | |- sim _ (script _) _ => unfold script
  end; cbn [at_time slider_float_state slider_int_state color_picker_state
            file_uploader_state clock].

Section Two_runs_script.

Context {B : Backend}.

(** The script goes the same way whatever the clock reads; only the file
    name on the download button can differ. *)
Lemma script_sim ses now1 now2 :
  sim same_run (script (at_time ses now1)) (script (at_time ses now2)).
Proof.
  repeat (first [sim_step | sim_unfold]).
Qed.


End Two_runs_script.

(** C7.  Two runs of the script with the same widget values and the same
    upload, whatever the clock reads at each: they find the same regions,
    leave the same annotated buffer, image and PNG bytes, the same buffers
    and detector calls, and the same page up to the file name offered for
    download (the one place the time of day enters). *)
Theorem runs_agree `{B : Backend} (ses : session) (now1 now2 : datetime) :
  regions_of (script (at_time ses now1) world0).1
    = regions_of (script (at_time ses now2) world0).1 /\
  annotated_of (script (at_time ses now1) world0)
    = annotated_of (script (at_time ses now2) world0) /\
  heap (script (at_time ses now1) world0).2 = heap (script (at_time ses now2) world0).2 /\
  calls (script (at_time ses now1) world0).2 = calls (script (at_time ses now2) world0).2 /\
  map forget_file_name (page (script (at_time ses now1) world0).2)
    = map forget_file_name (page (script (at_time ses now2) world0).2).
Proof.
  destruct (script_sim ses now1 now2 world0 world0 (same_world_refl _))
    as [(Hheap & Hcalls & Hpage) Hres].
  unfold annotated_of.
  destruct (script (at_time ses now1) world0) as [res1 w1],
           (script (at_time ses now2) world0) as [res2 w2].
  cbn [fst snd] in *.
  repeat split; try assumption.
  - destruct res1 as [[[[im1 oi1] [r1 |]] |] | e1], res2 as [[[[im2 oi2] [r2 |]] |] | e2];
      cbn in *; try tauto; try (by destruct Hres as (_ & _ & [=])).
    destruct Hres as (_ & _ & [= _ Hf _ _ _ _]). by rewrite Hf.
  - destruct res1 as [[[[im1 oi1] [r1 |]] |] | e1], res2 as [[[[im2 oi2] [r2 |]] |] | e2];
      cbn in *; try tauto; try (by destruct Hres as (_ & _ & [=])).
    destruct Hres as (_ & _ & [= _ _ Hl _ Hp Hb]). by rewrite Hheap, Hl, Hp, Hb.
Qed.

(** ** Further facts about runs *)

Section Further.

Context {B : Backend}.

Lemma detector_output_run ses :
  wp (script ses) (fun res w =>
    forall image opencv_image r,
      res = Ok (Some (image, opencv_image, Some r)) ->
      exists f bgr,
        uploaded ses = Some f /\ ingest f = Ok (image, bgr) /\
        detects ses bgr (v_faces r) /\
        In (Column 3 0, Metric "Faces Detected" (MInt (len (v_faces r)))) (page w) /\
        (length (List.filter is_detect_call (calls w)) = 1)%nat) world0.
Proof.
  unfold world0. wp_run; intros image oi r [=]; subst; cbn [v_faces].
  all: eexists _, _; unfold uploaded; (split; [eassumption |]);
    (split; [unfold ingest; by rew_lib |]);
    (split; [unfold detects, load_cascade, picked_scale_factor, picked_min_neighbors;
             eexists _, _; rew_lib; by repeat split |]);
    (split; [in_page | reflexivity]).
Qed.

End Further.

(** In a run that gets to the end of the [try] block, the regions are what
    the detector returned, in its one call, for the grayscale of the upload,
    the sliders' values and the minimum size (30, 30); the count on the page
    is their number. *)
Theorem reported_faces_are_detector_output `{B : Backend} ses image opencv_image r w :
  script ses world0 = (Ok (Some (image, opencv_image, Some r)), w) ->
  exists f bgr,
    uploaded ses = Some f /\ ingest f = Ok (image, bgr) /\
    detects ses bgr (v_faces r) /\
    In (Column 3 0, Metric "Faces Detected" (MInt (len (v_faces r)))) (page w) /\
    (length (List.filter is_detect_call (calls w)) = 1)%nat.
Proof.
  intros Hrun. exact (wp_run_eq _ _ _ _ _ (detector_output_run ses) Hrun _ _ _ eq_refl).
Qed.

Lemma reported_faces_are_detector_output_witness :
  exists image opencv_image r w,
    script (B := Ref.working) Ref.session_green world0
      = (Ok (Some (image, opencv_image, Some r)), w) /\
    v_faces r = [(1, 1, 4, 4)] /\
    In (Column 3 0, Metric "Faces Detected" (MInt 1)) (page w).
Proof.
  destruct working_run as [w Hrun]. unfold Ref.working_outcome in Hrun.
  destruct (reported_faces_are_detector_output (B := Ref.working) _ _ _ _ _ Hrun)
    as (f & bgr & _ & _ & _ & Hmetric & _).
  eexists _, _, _, w. split; [exact Hrun |]. split; [reflexivity | exact Hmetric].
Defined.

(** With nothing uploaded the run returns normally, whatever the libraries
    would do; its page is exactly the front matter, the placeholder texts and
    the footer; no cascade has been constructed, the detector has not been
    called, and no array has been created. *)
Theorem no_upload_run `{B : Backend} ses :
  uploaded ses = None ->
  exists w,
    script ses world0 = (Ok None, w) /\
    page w = (front_matter ++ placeholder_page)%list /\
    calls w = [] /\ heap w = ∅.
Proof.
  intros Hup. unfold uploaded in Hup.
  enough (wp (script ses) (fun res w =>
            res = Ok None /\ page w = (front_matter ++ placeholder_page)%list /\
            calls w = [] /\ heap w = ∅) world0) as Hwp.
  { unfold wp in Hwp. destruct (script ses world0) as [res w]. cbn in Hwp.
    destruct Hwp as (-> & ?). eauto. }
  unfold world0. wp_run. by repeat split.
Qed.

Lemma no_upload_run_witness :
  exists w,
    script (B := Ref.working) (Ref.first_render "#00FF00" None Ref.noon) world0 = (Ok None, w) /\
    page w = (front_matter ++ placeholder_page)%list /\
    calls w = [] /\ heap w = ∅.
Proof.
  exact (no_upload_run (B := Ref.working) (Ref.first_render "#00FF00" None Ref.noon)
           eq_refl).
Defined.

(** An upload that cannot be opened or converted makes the run raise: lines
    70-73 are outside the [try] block.  The widgets are on the page, the
    footer is not, and the detector was not called. *)
Theorem unreadable_upload_raises `{B : Backend} ses f e :
  uploaded ses = Some f ->
  ingest f = Raise e ->
  exists w,
    script ses world0 = (Raise e, w) /\
    page w = front_matter /\ calls w = [].
Proof.
  intros Hup Hing. unfold uploaded in Hup.
  enough (wp (script ses) (fun res w =>
            res = Raise e /\ page w = front_matter /\ calls w = []) world0) as Hwp.
  { unfold wp in Hwp. destruct (script ses world0) as [res w]. cbn in Hwp.
    destruct Hwp as (-> & ?). eauto. }
  unfold world0, ingest in *.
  destruct (Image_open f) as [image | e1] eqn:Hopen; cbn in Hing;
    [destruct (np_array image) as [arr | e2] eqn:Harr; cbn in Hing;
     [destruct (cvtColor arr COLOR_RGB2BGR) as [bgr | e3] eqn:Hbgr; cbn in Hing |] |];
    try discriminate; injection Hing as <-; wp_run; by repeat split.
Qed.

Lemma unreadable_upload_raises_witness :
  exists e w,
    script (B := Ref.working) (Ref.first_render "#00FF00" (Some []) Ref.noon) world0
      = (Raise e, w) /\
    page w = front_matter (B := Ref.working).
Proof.
  destruct (unreadable_upload_raises (B := Ref.working)
              (Ref.first_render "#00FF00" (Some []) Ref.noon) [] _ eq_refl eq_refl)
    as (w & Hrun & Hpage & _).
  eexists _, w. split; [exact Hrun | exact Hpage].
Defined.

(** ** Runs, stage by stage *)

Section Stage_lemmas.

Context {B : Backend}.

Lemma map_enumerate_from {A C} (g : nat * A -> C) i (xs : list A) :
  map g (enumerate_from i xs) = imap (fun k x => g ((i + k)%nat, x)) xs.
Proof.
  revert i g. induction xs as [| x rest IH]; intros i g; cbn; [reflexivity |].
  rewrite Nat.add_0_r. f_equal. rewrite IH. apply imap_ext. intros k y _.
  cbn. do 2 f_equal. lia.
Qed.

(** The script's runs are exactly those of [stage_outcome]. *)
Lemma script_by_stages ses : wp (script ses) (stage_outcome ses) world0.
Proof.
  unfold world0, stage_outcome. unfold_picked. wp_run.
  all: unfold ingest, prepare, load_cascade, picked_scale_factor, picked_min_neighbors,
         picked_colour; rew_lib.
  all: try (split; reflexivity).
  all: match goal with |- context [Ok (Some (_, ?l, _)) = _] => exists l end;
         (split; [solve_lookup |]); rew_lib;
         try match goal with H : draw_all _ _ _ = _ |- _ => rewrite H; cbn [rbind] end;
         rew_lib.
  all: try (split; reflexivity).
  all: match goal with H : (0 <? len ?fs) = _ |- _ => destruct fs; try discriminate H end.
  all: try (eexists; repeat split; solve_lookup).
  all: try (split; [reflexivity |]).
  all: try (eexists; (split; [reflexivity |]); cbn [v_faces v_bgr_color v_result_pil v_png
              v_filename v_result_image]; repeat (split; [first [reflexivity | solve_lookup] |])).
  all: try reflexivity.
  all: rewrite map_enumerate_from; cbv beta iota delta [results_page coordinates];
         rewrite <- !app_assoc; reflexivity.
Qed.

End Stage_lemmas.

(** ** What a run puts on the page *)

Section Pages.

Context {B : Backend}.

Lemma stage_run ses : stage_outcome ses (script ses world0).1 (script ses world0).2.
Proof. exact (script_by_stages ses). Qed.

(** A run that got to the end of the [try] block went through every
    stage. *)
Lemma completed_run_inv ses image opencv_image r w :
  script ses world0 = (Ok (Some (image, opencv_image, Some r)), w) ->
  exists f bgr annotated,
    uploaded ses = Some f /\ ingest f = Ok (image, bgr) /\
    prepare ses bgr = Ok (v_faces r, v_bgr_color r, annotated, v_result_pil r) /\
    Image_save (v_result_pil r) "PNG" = Ok (v_png r) /\
    v_filename r = result_filename (clock ses) /\
    page w = (front_matter ++ original_column image ++
              results_page ses (v_faces r) (v_result_pil r) ++
              closing_page ses (v_faces r) (v_png r))%list.
Proof.
  intros Hrun. pose proof (stage_run ses) as Hs. rewrite Hrun in Hs.
  unfold stage_outcome in Hs. cbn [fst snd] in Hs.
  destruct (uploaded ses) as [f |]; [| by destruct Hs].
  destruct (ingest f) as [[image' bgr] | e] eqn:Hin; [| by destruct Hs].
  destruct Hs as (l & _ & Hs).
  destruct (prepare ses bgr) as [[[[faces colour] annotated] pil] | e] eqn:Hprep;
    [| by destruct Hs].
  destruct (Image_save pil "PNG") as [png | e] eqn:Hsave; [| by destruct Hs].
  destruct Hs as (r' & [= <- <- <-] & <- & <- & <- & <- & Hname & _ & Hpage).
  exists f, bgr, annotated. by rewrite Hsave.
Qed.

Lemma written_app {image} (p q : list (container * element image)) :
  written (p ++ q) = (written p ++ written q)%list.
Proof. apply omap_app. Qed.

Lemma written_coordinates faces :
  written (coordinates faces) = imap face_line faces.
Proof.
  destruct faces as [| r rest]; [reflexivity |].
  unfold coordinates. generalize (r :: rest). intros fs. cbn.
  generalize face_line. induction fs as [| x xs IH]; intros g; [reflexivity |].
  cbn. f_equal. apply IH.
Qed.

Lemma coordinates_no_verdict faces :
  List.filter (fun ce => is_verdict ce.2) (coordinates faces) = [].
Proof.
  destruct faces as [| r rest]; [reflexivity |].
  unfold coordinates. generalize (r :: rest). intros fs. cbn.
  generalize face_line. induction fs as [| x xs IH]; intros g; [reflexivity |].
  cbn. apply IH.
Qed.

Lemma coordinates_no_button faces :
  List.filter (fun ce => is_download ce.2) (coordinates faces) = [].
Proof.
  destruct faces as [| r rest]; [reflexivity |].
  unfold coordinates. generalize (r :: rest). intros fs. cbn.
  generalize face_line. induction fs as [| x xs IH]; intros g; [reflexivity |].
  cbn. apply IH.
Qed.

Lemma coordinates_no_download faces :
  Forall (fun ce => is_download ce.2 = false) (coordinates faces).
Proof.
  destruct faces as [| r rest]; [constructor |].
  unfold coordinates. generalize (r :: rest). intros fs. constructor; [reflexivity |].
  generalize face_line. induction fs as [| x xs IH]; intros g; [constructor |].
  cbn. constructor; [reflexivity | apply IH].
Qed.

End Pages.

(** When every library call of lines 70-140 returns, the run gets to the
    end of the [try] block, and its page is, in this order: the front
    matter, the original image, the result image with its caption, the three
    statistics, the coordinates (a heading and one line per region, numbered
    from 1 in the detector's order, or nothing when there is no region), the
    download button with the PNG bytes and the stamped file name, the
    success message with the count (the warning when there is no region),
    and the footer. *)
Theorem completed_run_page `{B : Backend} ses f image bgr faces colour annotated pil png :
  uploaded ses = Some f ->
  ingest f = Ok (image, bgr) ->
  prepare ses bgr = Ok (faces, colour, annotated, pil) ->
  Image_save pil "PNG" = Ok png ->
  exists opencv_image r w,
    script ses world0 = (Ok (Some (image, opencv_image, Some r)), w) /\
    v_faces r = faces /\ v_bgr_color r = colour /\ v_result_pil r = pil /\
    v_png r = png /\ v_filename r = result_filename (clock ses) /\
    heap w !! v_result_image r = Some annotated /\
    page w = (front_matter ++ original_column image ++
              results_page ses faces pil ++ closing_page ses faces png)%list.
Proof.
  intros Hup Hin Hprep Hsave. pose proof (stage_run ses) as Hs.
  unfold stage_outcome in Hs. rewrite Hup, Hin in Hs. destruct Hs as (l & _ & Hs).
  rewrite Hprep, Hsave in Hs. destruct Hs as (r & Hres & Hs).
  exists l, r, (script ses world0).2. split; [| exact Hs].
  rewrite <- Hres. by destruct (script ses world0).
Qed.

Lemma completed_run_page_witness :
  exists opencv_image r w,
    script (B := Ref.working) Ref.session_green world0
      = (Ok (Some (Ref.red_image, opencv_image, Some r)), w) /\
    v_faces r = [(1, 1, 4, 4)] /\ v_bgr_color r = (0, 255, 0) /\
    v_filename r = "face_detection_result_20240517_120007.png".
Proof.
  destruct (completed_run_page (B := Ref.working) Ref.session_green
              Ref.red_6x6 Ref.red_image Ref.red_bgr _ _ _ _ _
              eq_refl eq_refl eq_refl eq_refl)
    as (l & r & w & Hrun & Hf & Hc & _ & _ & Hn & _).
  exists l, r, w. split; [exact Hrun |]. split; [exact Hf |]. split; [exact Hc |].
  exact Hn.
Defined.

(** The lines written on the page of a run that got to the end of the [try]
    block are exactly one per detected region, in the detector's order and
    numbered from 1; the only verdict on that page is the success message
    with the count when there is a region, the warning when there is none;
    and the page holds one download button. *)
Theorem face_lines_follow_regions `{B : Backend} ses image opencv_image r w :
  script ses world0 = (Ok (Some (image, opencv_image, Some r)), w) ->
  written (page w) = imap face_line (v_faces r) /\
  List.filter (fun ce => is_verdict ce.2) (page w) = [(Page, verdict (v_faces r))] /\
  List.filter (fun ce => is_download ce.2) (page w)
    = [(Page, DownloadButton "📥 Download Image with Detected Faces" (v_png r)
                (v_filename r) "image/png")].
Proof.
  intros (f & bgr & annotated & _ & _ & _ & _ & Hname & Hpage)%completed_run_inv.
  rewrite Hpage, Hname. unfold results_page.
  rewrite !written_app, !List.filter_app, written_coordinates, coordinates_no_verdict,
    coordinates_no_button.
  split; [| split].
  - cbn. rewrite app_nil_r. destruct (v_faces r); cbn; by rewrite ?app_nil_r.
  - by destruct (v_faces r).
  - by destruct (v_faces r).
Qed.

Lemma face_lines_follow_regions_witness :
  exists w : world_t (B := Ref.working),
    written (page w)
      = ["**Face 1:** Position (x=1, y=1), Size (width=4, height=4)"] /\
    In (Page, Success "✅ Successfully detected 1 face(s) in the image!") (page w).
Proof.
  destruct working_run as [w Hrun]. exists w.
  destruct (face_lines_follow_regions (B := Ref.working) _ _ _ _ _ Hrun) as (Hw & Hv & _).
  split; [exact Hw |].
  apply (proj1 (List.filter_In (fun ce => is_verdict ce.2) _ (page w))).
  rewrite Hv. left. reflexivity.
Defined.

(** Whatever call of lines 84-106 raises (the cascade, the grayscale
    conversion, the detection, the colour, a rectangle, the conversion back
    to RGB or the PIL image), the run returns normally with nothing from the
    [try] block, and its page holds the front matter, the original image, the
    error report with the exception's text and the footer: no result image,
    no statistics, no download button. *)
Theorem failure_before_results `{B : Backend} ses f image bgr e :
  uploaded ses = Some f ->
  ingest f = Ok (image, bgr) ->
  prepare ses bgr = Raise e ->
  exists opencv_image w,
    script ses world0 = (Ok (Some (image, opencv_image, None)), w) /\
    heap w !! opencv_image = Some bgr /\
    page w = (front_matter ++ original_column image ++ error_report e)%list.
Proof.
  intros Hup Hin Hprep. pose proof (stage_run ses) as Hs.
  unfold stage_outcome in Hs. rewrite Hup, Hin in Hs. destruct Hs as (l & Hl & Hs).
  rewrite Hprep in Hs. destruct Hs as [Hres Hpage].
  exists l, (script ses world0).2. split; [| by split].
  rewrite <- Hres. by destruct (script ses world0).
Qed.

Lemma failure_before_results_witness :
  exists opencv_image w,
    script (B := Ref.broken) Ref.session_green world0
      = (Ok (Some (Ref.red_image, opencv_image, None)), w) /\
    In (Page, ErrorEl
          "❌ Error loading face detection model: (-215:Assertion failed) !empty() in function 'detectMultiScale'")
       (page w).
Proof.
  destruct (failure_before_results (B := Ref.broken) Ref.session_green
              Ref.red_6x6 Ref.red_image Ref.red_bgr _ eq_refl eq_refl eq_refl)
    as (l & w & Hrun & _ & Hpage).
  exists l, w. split; [exact Hrun |]. rewrite Hpage.
  apply in_or_app. right. apply in_or_app. right. left. reflexivity.
Defined.

(** When saving the PNG raises (line 139), the result image, the statistics
    and the coordinates are already on the page; the error report and the
    footer follow them, the run returns normally with nothing from the
    [try] block, and the page has no download button and no verdict. *)
Theorem save_failure_page `{B : Backend} ses f image bgr faces colour annotated pil e :
  uploaded ses = Some f ->
  ingest f = Ok (image, bgr) ->
  prepare ses bgr = Ok (faces, colour, annotated, pil) ->
  Image_save pil "PNG" = Raise e ->
  exists opencv_image w,
    script ses world0 = (Ok (Some (image, opencv_image, None)), w) /\
    page w = (front_matter ++ original_column image ++
              results_page ses faces pil ++ error_report e)%list /\
    List.filter (fun ce => is_download ce.2 || is_verdict ce.2) (page w) = [].
Proof.
  intros Hup Hin Hprep Hsave. pose proof (stage_run ses) as Hs.
  unfold stage_outcome in Hs. rewrite Hup, Hin in Hs. destruct Hs as (l & _ & Hs).
  rewrite Hprep, Hsave in Hs. destruct Hs as [Hres Hpage].
  exists l, (script ses world0).2. split; [| split; [exact Hpage |]].
  { rewrite <- Hres. by destruct (script ses world0). }
  rewrite Hpage. unfold results_page. rewrite !List.filter_app.
  assert (List.filter (fun ce : container * element pil_image =>
                         is_download ce.2 || is_verdict ce.2) (coordinates faces) = [])
    as ->; [| reflexivity].
  destruct faces as [| r rest]; [reflexivity |].
  unfold coordinates. generalize (r :: rest). intros fs. cbn.
  generalize face_line. induction fs as [| x xs IH]; intros g; [reflexivity |].
  cbn. apply IH.
Qed.

Lemma save_failure_page_witness :
  exists opencv_image w,
    script (B := Faulty.no_png) Ref.session_green world0
      = (Ok (Some (Ref.red_image, opencv_image, None)), w) /\
    In (Column 3 0, Metric "Faces Detected" (MInt 1)) (page w) /\
    In (Page, ErrorEl "❌ Error loading face detection model: encoder zip not available")
       (page w).
Proof.
  destruct (save_failure_page (B := Faulty.no_png) Ref.session_green
              Ref.red_6x6 Ref.red_image Ref.red_bgr _ _ _ _ _
              eq_refl eq_refl eq_refl eq_refl)
    as (l & w & Hrun & Hpage & _).
  exists l, w. split; [exact Hrun |]. rewrite Hpage. split.
  - apply in_or_app. right. apply in_or_app. right. apply in_or_app. left.
    do 4 right. left. reflexivity.
  - do 3 (apply in_or_app; right). left. reflexivity.
Defined.

(** The only exceptions that leave the script are those of lines 70-73:
    when a run raises, a file was uploaded, opening it or converting it to a
    BGR array raised that exception, and nothing but the front matter is on
    the page (no footer). *)
Theorem only_ingestion_escapes `{B : Backend} ses e w :
  script ses world0 = (Raise e, w) ->
  exists f, uploaded ses = Some f /\ ingest f = Raise e /\ page w = front_matter.
Proof.
  intros Hrun. pose proof (stage_run ses) as Hs. rewrite Hrun in Hs.
  unfold stage_outcome in Hs. cbn [fst snd] in Hs.
  destruct (uploaded ses) as [f |]; [| by destruct Hs].
  exists f. split; [reflexivity |].
  destruct (ingest f) as [[image bgr] | e'].
  - destruct Hs as (l & _ & Hs).
    destruct (prepare ses bgr) as [[[[faces colour] annotated] pil] | e'];
      [| by destruct Hs].
    destruct (Image_save pil "PNG") as [png | e']; [| by destruct Hs].
    by destruct Hs as (r & ? & _).
  - destruct Hs as [[= ->] Hpage]. by split.
Qed.

Lemma only_ingestion_escapes_witness :
  exists f,
    uploaded (Ref.first_render "#00FF00" (Some []) Ref.noon) = Some f /\
    ingest (B := Ref.working) f
      = Raise (LibraryError "UnidentifiedImageError" "cannot identify image file").
Proof.
  destruct (only_ingestion_escapes (B := Ref.working)
              (Ref.first_render "#00FF00" (Some []) Ref.noon) _ _ eq_refl)
    as (f & Hup & Hin & _).
  exists f. split; [exact Hup | exact Hin].
Defined.

(** Every run renders the front matter first (page configuration, title,
    instructions, the three sidebar widgets, the uploader), whatever happens
    next; and the page of a run that returns ends with the separator and the
    footer. *)
Theorem page_frame `{B : Backend} ses :
  exists body,
    page (script ses world0).2 = (front_matter ++ body)%list /\
    forall v, (script ses world0).1 = Ok v ->
      exists middle, body = (middle ++ footer_lines)%list.
Proof.
  pose proof (stage_run ses) as Hs. unfold stage_outcome in Hs.
  destruct (uploaded ses) as [f |].
  - destruct (ingest f) as [[image bgr] | e].
    + destruct Hs as (l & _ & Hs).
      destruct (prepare ses bgr) as [[[[faces colour] annotated] pil] | e].
      * destruct (Image_save pil "PNG") as [png | e].
        -- destruct Hs as (r & _ & _ & _ & _ & _ & _ & _ & ->).
           eexists. split; [reflexivity |]. intros _ _.
           exists (original_column image ++ results_page ses faces pil ++
                   [(Page, DownloadButton "📥 Download Image with Detected Faces" png
                             (result_filename (clock ses)) "image/png");
                    (Page, verdict faces)])%list.
           by rewrite <- !app_assoc.
        -- destruct Hs as [_ ->]. eexists. split; [reflexivity |]. intros _ _.
           exists (original_column image ++ results_page ses faces pil ++
                   [(Page, ErrorEl ("❌ Error loading face detection model: " ++ exn_str e));
                    (Page, Info "Make sure OpenCV is properly installed with the required data files.")])%list.
           by rewrite <- !app_assoc.
      * destruct Hs as [_ ->]. eexists. split; [reflexivity |]. intros _ _.
        exists (original_column image ++
                [(Page, ErrorEl ("❌ Error loading face detection model: " ++ exn_str e));
                 (Page, Info "Make sure OpenCV is properly installed with the required data files.")])%list.
        by rewrite <- !app_assoc.
    + destruct Hs as [-> ->]. exists []. split; [by rewrite app_nil_r |].
      intros v [=].
  - destruct Hs as [_ ->]. eexists. split; [reflexivity |]. intros _ _.
    by exists [(Page, Info "👆 Please upload an image to start face detection!");
               (Page, Markdown "### 🌟 Features of This App:");
               (Page, Markdown features);
               (Page, Markdown "### 🔧 Parameter Guidelines:");
               (Page, Markdown guidelines)].
Qed.

(** ** The colour conversion on every string *)

Lemma In_all_ascii c : In c all_ascii.
Proof.
  unfold all_ascii. rewrite <- (ascii_nat_embedding c).
  apply in_map, in_seq. pose proof (nat_ascii_bounded c). lia.
Qed.

Lemma In_short_strings t : (String.length t <= 2)%nat -> In t short_strings.
Proof.
  intros Hlen. unfold short_strings.
  destruct t as [| c1 [| c2 [| c3 t]]]; cbn in Hlen; try lia.
  - by left.
  - right. apply in_or_app. left. apply (in_map (fun c => String c EmptyString)).
    apply In_all_ascii.
  - right. apply in_or_app. right. apply in_flat_map. exists c1.
    split; [apply In_all_ascii |].
    apply (in_map (fun c => String c1 (String c EmptyString))). apply In_all_ascii.
Qed.

Lemma int16_short_table :
  forallb (fun t => same_value (int16_value t) (pair_value t)) short_strings = true.
Proof. vm_compute. reflexivity. Qed.

(** On a slice of at most two characters [int(_, 16)] has the value of
    [pair_value], and raises when there is none. *)
Lemma int16_value_pair t :
  (String.length t <= 2)%nat -> int16_value t = pair_value t.
Proof.
  intros Hin%In_short_strings.
  pose proof (proj1 (forallb_forall _ _) int16_short_table t Hin) as Hsame.
  cbv beta in Hsame.
  destruct (int16_value t), (pair_value t); cbn in Hsame; try discriminate;
    [f_equal; lia | reflexivity].
Qed.

Lemma length_take_str n s : (String.length (take_str n s) <= n)%nat.
Proof.
  revert s. induction n as [| n IH]; intros [| c s]; cbn; try lia.
  specialize (IH s). lia.
Qed.

Lemma length_slice s i j : (String.length (slice s i j) <= j - i)%nat.
Proof. apply length_take_str. Qed.

Lemma int16_slice s i :
  int16_value (slice s i (i + 2)) = pair_value (slice s i (i + 2)).
Proof. apply int16_value_pair. pose proof (length_slice s i (i + 2)). lia. Qed.

Lemma int16_Ok t v : int16 t = Ok v <-> int16_value t = Some v.
Proof.
  unfold int16_value. destruct (int16 t); split; intros [=]; by subst.
Qed.

Lemma hex_to_bgr_Ok s b g r :
  hex_to_bgr s = Ok (b, g, r) <->
  int16_value (slice (lstrip s "#") 0 2) = Some r /\
  int16_value (slice (lstrip s "#") 2 4) = Some g /\
  int16_value (slice (lstrip s "#") 4 6) = Some b.
Proof.
  unfold hex_to_bgr, int16_value.
  destruct (int16 (slice (lstrip s "#") 0 2)) as [r' |]; cbn [rbind];
    [| split; [discriminate | by intros [[=] _]]].
  destruct (int16 (slice (lstrip s "#") 2 4)) as [g' |]; cbn [rbind];
    [| split; [discriminate | by intros (_ & [=] & _)]].
  destruct (int16 (slice (lstrip s "#") 4 6)) as [b' |]; cbn [rbind];
    [| split; [discriminate | by intros (_ & _ & [=])]].
  cbn. split.
  - by intros [= -> -> ->].
  - by intros ([= ->] & [= ->] & [= ->]).
Qed.

Lemma hex_to_bgr_Ok_pairs s b g r :
  hex_to_bgr s = Ok (b, g, r) <->
  pair_value (slice (lstrip s "#") 0 2) = Some r /\
  pair_value (slice (lstrip s "#") 2 4) = Some g /\
  pair_value (slice (lstrip s "#") 4 6) = Some b.
Proof.
  rewrite hex_to_bgr_Ok.
  by rewrite (int16_slice _ 0), (int16_slice _ 2), (int16_slice _ 4).
Qed.

(** [hex_to_bgr] returns exactly when, after the leading hashes, each of
    the character pairs at 0-1, 2-3 and 4-5 has a value: two hexadecimal
    digits; or a single digit standing alone at the end of the string, after
    a sign or a blank, or before a blank.  The values come back in the order
    blue, green, red.  (Strings of Latin-1 code points.) *)
Theorem hex_to_bgr_pairs s b g r :
  hex_to_bgr s = Ok (b, g, r) <->
  pair_value (slice (lstrip s "#") 0 2) = Some r /\
  pair_value (slice (lstrip s "#") 2 4) = Some g /\
  pair_value (slice (lstrip s "#") 4 6) = Some b.
Proof. exact (hex_to_bgr_Ok_pairs s b g r). Qed.

Lemma pair_value_range t v : pair_value t = Some v -> -15 <= v <= 255.
Proof.
  destruct t as [| c1 [| c2 [| c3 t]]]; cbn; try discriminate.
  - intros Hv%hex_digit_value_range. lia.
  - destruct (hex_digit_value c1) as [v1 |] eqn:H1, (hex_digit_value c2) as [v2 |] eqn:H2;
      try discriminate;
      repeat match goal with
             | H : hex_digit_value _ = Some _ |- _ => apply hex_digit_value_range in H
             end.
    + intros [= <-]. lia.
    + destruct (is_blank c2); intros [= <-]. lia.
    + destruct (Ascii.eqb c1 "+" || is_blank c1); [intros [= <-]; lia |].
      destruct (Ascii.eqb c1 "-"); intros [= <-]. lia.
Qed.

(** A colour that converts has each channel between -15 and 255: a pair
    such as [-f] gives a negative channel, which goes to [cv2.rectangle] as
    it is. *)
Theorem hex_to_bgr_channel_bounds s b g r :
  hex_to_bgr s = Ok (b, g, r) ->
  -15 <= b <= 255 /\ -15 <= g <= 255 /\ -15 <= r <= 255.
Proof.
  intros (Hr & Hg & Hb)%hex_to_bgr_Ok_pairs.
  apply pair_value_range in Hr, Hg, Hb. lia.
Qed.

Lemma hex_to_bgr_channel_bounds_witness :
  hex_to_bgr "#-f00ff" = Ok (255, 0, -15) /\
  -15 <= 255 <= 255 /\ -15 <= 0 <= 255 /\ -15 <= -15 <= 255.
Proof.
  split; [reflexivity |].
  exact (hex_to_bgr_channel_bounds "#-f00ff" 255 0 (-15) eq_refl).
Defined.

Lemma lstrip_take_str n s :
  lstrip (take_str n (lstrip s "#")) "#" = take_str n (lstrip s "#").
Proof.
  induction s as [| c s IH]; cbn.
  - by destruct n.
  - destruct (Ascii.eqb c "#") eqn:Hc; [exact IH |].
    destruct n; cbn; [reflexivity |]. by rewrite Hc.
Qed.

Lemma take_take_str n m s : (n <= m)%nat -> take_str n (take_str m s) = take_str n s.
Proof.
  revert m s. induction n as [| n IH]; intros m s Hnm; [reflexivity |].
  destruct m as [| m]; [lia |]. destruct s as [| c s]; cbn; [reflexivity |].
  f_equal. apply IH. lia.
Qed.

Lemma slice_take_str m s i j : (j <= m)%nat -> slice (take_str m s) i j = slice s i j.
Proof.
  unfold slice. revert m s j. induction i as [| i IH]; intros m s j Hjm.
  - cbn. apply take_take_str. lia.
  - destruct j as [| j]; [by destruct (drop_str _ _), (drop_str _ _) |].
    destruct m as [| m]; [lia |]. destruct s as [| c s]; cbn [take_str drop_str].
    + reflexivity.
    + replace (S j - S i)%nat with (j - i)%nat by lia. apply IH. lia.
Qed.

(** Only the first six characters after the leading hashes count: the
    conversion of a string is that of those six characters, value or
    exception alike, so anything may follow them. *)
Theorem hex_to_bgr_first_six s :
  hex_to_bgr s = hex_to_bgr (take_str 6 (lstrip s "#")).
Proof.
  unfold hex_to_bgr. rewrite lstrip_take_str.
  by rewrite !slice_take_str by lia.
Qed.

Lemma drop_str_short n s : (String.length s <= n)%nat -> drop_str n s = EmptyString.
Proof.
  revert s. induction n as [| n IH]; intros [| c s]; cbn; try reflexivity; try lia.
  intros Hlen. apply IH. lia.
Qed.

(** With fewer than five characters after the leading hashes the
    conversion raises [ValueError], whatever the characters: the three-digit
    form [#FFF] is not read as a colour. *)
Theorem hex_to_bgr_short_raises s :
  (String.length (lstrip s "#") <= 4)%nat ->
  exists literal, hex_to_bgr s = Raise (ValueError literal).
Proof.
  intros Hlen. unfold hex_to_bgr.
  assert (slice (lstrip s "#") 4 6 = EmptyString) as ->.
  { unfold slice. by rewrite drop_str_short. }
  unfold int16 at 1. destruct (PyLong_FromString16 _); cbn [rbind]; [| by eexists].
  unfold int16 at 1. destruct (PyLong_FromString16 _); cbn [rbind]; [| by eexists].
  by eexists.
Qed.

Lemma hex_to_bgr_short_raises_witness :
  exists literal, hex_to_bgr "#FFF" = Raise (ValueError literal).
Proof.
  apply (hex_to_bgr_short_raises "#FFF"). cbn. lia.
Defined.

Lemma ascii_lower_table :
  forallb (fun c => Bool.eqb (Ascii.eqb (ascii_lower c) "#") (Ascii.eqb c "#")) all_ascii
  = true.
Proof. vm_compute. reflexivity. Qed.

Lemma ascii_lower_hash c : Ascii.eqb (ascii_lower c) "#" = Ascii.eqb c "#".
Proof.
  pose proof (proj1 (forallb_forall _ _) ascii_lower_table c (In_all_ascii c)) as H.
  by apply Bool.eqb_prop in H.
Qed.

Lemma lstrip_lower s : lstrip (lower s) "#" = lower (lstrip s "#").
Proof.
  induction s as [| c s IH]; [reflexivity |]. cbn.
  rewrite ascii_lower_hash. by destruct (Ascii.eqb c "#").
Qed.

Lemma take_str_lower n s : take_str n (lower s) = lower (take_str n s).
Proof.
  revert s. induction n as [| n IH]; intros [| c s]; cbn; try reflexivity.
  by rewrite IH.
Qed.

Lemma drop_str_lower n s : drop_str n (lower s) = lower (drop_str n s).
Proof.
  revert s. induction n as [| n IH]; intros [| c s]; cbn; try reflexivity.
  apply IH.
Qed.

Lemma slice_lower s i j : slice (lower s) i j = lower (slice s i j).
Proof. unfold slice. by rewrite drop_str_lower, take_str_lower. Qed.

Lemma pair_value_lower_table :
  forallb (fun t => same_value (pair_value (lower t)) (pair_value t)) short_strings = true.
Proof. vm_compute. reflexivity. Qed.

Lemma pair_value_lower s i j :
  (j - i <= 2)%nat -> pair_value (lower (slice s i j)) = pair_value (slice s i j).
Proof.
  intros Hij.
  assert (In (slice s i j) short_strings) as Hin.
  { apply In_short_strings. pose proof (length_slice s i j). lia. }
  pose proof (proj1 (forallb_forall _ _) pair_value_lower_table _ Hin) as Hsame.
  cbv beta in Hsame.
  destruct (pair_value (lower _)), (pair_value (slice _ _ _)); cbn in Hsame;
    try discriminate; [f_equal; lia | reflexivity].
Qed.

(** The case of the letters does not matter: a string and the same string
    with [A]..[Z] in lower case convert to the same channels, or both
    raise. *)
Theorem hex_to_bgr_ignores_case s : colour_value (lower s) = colour_value s.
Proof.
  unfold colour_value.
  destruct (hex_to_bgr (lower s)) as [[[b g] r] | e] eqn:Hl,
           (hex_to_bgr s) as [[[b' g'] r'] | e'] eqn:Hs; try reflexivity.
  - apply hex_to_bgr_Ok_pairs in Hl, Hs. rewrite lstrip_lower, !slice_lower in Hl.
    rewrite !pair_value_lower in Hl by (cbn; lia).
    destruct Hl as (Hr & Hg & Hb), Hs as (Hr' & Hg' & Hb'). congruence.
  - apply hex_to_bgr_Ok_pairs in Hl. rewrite lstrip_lower, !slice_lower in Hl.
    rewrite !pair_value_lower in Hl by (cbn; lia).
    apply hex_to_bgr_Ok_pairs in Hl. congruence.
  - apply hex_to_bgr_Ok_pairs in Hs.
    rewrite <- (pair_value_lower _ 0 2), <- (pair_value_lower _ 2 4),
      <- (pair_value_lower _ 4 6), <- !slice_lower, <- lstrip_lower in Hs by (cbn; lia).
    apply hex_to_bgr_Ok_pairs in Hs. congruence.
Qed.

Lemma int16_Raise t e : int16 t = Raise e -> e = ValueError t /\ int16_value t = None.
Proof.
  unfold int16_value. intros H. rewrite H. split; [| reflexivity].
  unfold int16 in H. destruct (PyLong_FromString16 _); [discriminate | by injection H].
Qed.

(** When the conversion raises, the exception is the [ValueError] of the
    first pair, from the left, that has no value, and it carries that pair's
    characters, which is what the error message on the page quotes. *)
Theorem hex_to_bgr_names_bad_pair s e :
  hex_to_bgr s = Raise e ->
  exists i, In i [0; 2; 4]%nat /\
    e = ValueError (slice (lstrip s "#") i (i + 2)) /\
    pair_value (slice (lstrip s "#") i (i + 2)) = None /\
    forall j, In j [0; 2; 4]%nat -> (j < i)%nat ->
      pair_value (slice (lstrip s "#") j (j + 2)) <> None.
Proof.
  unfold hex_to_bgr.
  destruct (int16 (slice (lstrip s "#") 0 2)) as [r |] eqn:H0; cbn [rbind].
  2: { intros [= <-]. apply int16_Raise in H0 as [-> H0]. exists 0%nat.
       rewrite <- (int16_slice _ 0). repeat split; [by left | exact H0 | intros j _ Hj; lia]. }
  destruct (int16 (slice (lstrip s "#") 2 4)) as [g |] eqn:H2; cbn [rbind].
  2: { intros [= <-]. apply int16_Raise in H2 as [-> H2]. exists 2%nat.
       rewrite <- (int16_slice _ 2). repeat split; [right; by left | exact H2 |].
       intros j [<- | [<- | [<- | []]]] Hj; try lia.
       rewrite <- (int16_slice _ 0). apply int16_Ok in H0. intros Hn.
    change (int16_value (slice (lstrip s "#") 0 2) = None) in Hn. congruence. }
  destruct (int16 (slice (lstrip s "#") 4 6)) as [b |] eqn:H4; cbn [rbind]; [discriminate |].
  intros [= <-]. apply int16_Raise in H4 as [-> H4]. exists 4%nat.
  rewrite <- (int16_slice _ 4). repeat split; [right; right; by left | exact H4 |].
  intros j [<- | [<- | [<- | []]]] Hj; try lia.
  - rewrite <- (int16_slice _ 0). apply int16_Ok in H0. intros Hn.
    change (int16_value (slice (lstrip s "#") 0 2) = None) in Hn. congruence.
  - rewrite <- (int16_slice _ 2). apply int16_Ok in H2. intros Hn.
    change (int16_value (slice (lstrip s "#") 2 4) = None) in Hn. congruence.
Qed.

Lemma hex_to_bgr_names_bad_pair_witness :
  exists i, In i [0; 2; 4]%nat /\
    ValueError "0G" = ValueError (slice (lstrip "#FF0G00" "#") i (i + 2)).
Proof.
  destruct (hex_to_bgr_names_bad_pair "#FF0G00" (ValueError "0G") eq_refl)
    as (i & Hi & He & _).
  exists i. split; [exact Hi | exact He].
Defined.

(** ** The name of the download *)

Lemma stamp_of_result_filename dt :
  slice (result_filename dt) 22 37 = strftime_Ymd_HMS dt.
Proof. reflexivity. Qed.

(** Two downloads get the same file name exactly when they are made in the
    same second: for clocks with a four-digit year the name determines year,
    month, day, hour, minute and second. *)
Theorem result_filename_same_second dt1 dt2 :
  valid_clock dt1 -> valid_clock dt2 ->
  (result_filename dt1 = result_filename dt2 <-> dt1 = dt2).
Proof.
  intros H1 H2. split; [| by intros ->].
  intros Hname.
  rewrite <- (read_strftime dt1 H1), <- (read_strftime dt2 H2).
  by rewrite <- !stamp_of_result_filename, Hname.
Qed.

Lemma result_filename_same_second_witness :
  result_filename Ref.noon
  <> result_filename {| year := 2024; month := 5; day := 17;
                        hour := 12; minute := 0; second := 8 |}.
Proof.
  intros Hname.
  apply (result_filename_same_second Ref.noon
           {| year := 2024; month := 5; day := 17; hour := 12; minute := 0; second := 8 |})
    in Hname; [discriminate Hname | |]; unfold valid_clock; cbn; lia.
Defined.
